(** * Composite scoring engine of the PR assistant

    A shallow embedding of [src/mvp/ai-engine/scoring-engine.js] (class
    [ScoringEngine]) and the properties its specification states about it.

    Conventions of the embedding.
    - JavaScript numbers are IEEE 754 binary64.  A finite number is the
      rational it denotes ([Q]); [JsNumber] adds NaN and the infinities.
      Every arithmetic result is rounded by [b64] (round to nearest, ties to
      even, subnormals, overflow to infinity), so the weighted sum, the
      rounding of the total and [parseFloat] give the numbers the program
      gives.  The sub-scores are kept in [Q]: the constants the heuristics
      add (5.0, 1.5, 1.0, 2.0) and all their sums are binary64 numbers, so
      these sums need no rounding.  The sign of zero is not tracked; the
      engine never divides by a variable and its comparisons treat both
      zeros alike.  The numbers of the configuration are the binary64
      values the engine holds.
    - Strings are [string] (8-bit characters); [length], [toLowerCase],
      [includes] and the regular expression are modelled on ASCII text.
    - [undefined]/[null] properties are [None]; JavaScript truthiness is
      written out where the source relies on it.
    - Exceptions are the [inl] side of ExtLib's error monad [sum JsError];
      [try { .. } catch (error) { .. }] is [catch].
    - The OpenAI client, [JSON.parse] of its reply and the clock are inputs:
      a [ModelClient] gives the outcome of each of the two calls.  The
      logger only writes diagnostics and is left out. *)

From Stdlib Require Import QArith Qround Qminmax Qpower Lqa ZArith Lia List String Ascii Bool.
From Stdlib Require Import SpecFloat.
From ExtLib Require Import Structures.Monad Structures.MonadExc Data.Monads.EitherMonad.
Import ListNotations MonadNotation.

Local Open Scope string_scope.
Local Open Scope Q_scope.
Local Open Scope monad_scope.

(** ** The JavaScript built-ins the engine calls *)

Module JS.

(** A thrown value: the constructor name and the message. *)
Record JsError : Type := mkError { err_name : string; err_message : string }.

Definition Error (msg : string) : JsError := mkError "Error" msg.
Definition ReferenceError (msg : string) : JsError := mkError "ReferenceError" msg.

(** Result of [parseFloat]. *)
Inductive JsNumber : Type :=
| NaN
| Infinity (negative : bool)
| Finite (q : Q).

Definition isNaN (x : JsNumber) : bool :=
  match x with NaN => true | _ => false end.

(** [2^z]. *)
Definition pow2 (z : Z) : Q := Qpower 2 z.

(** The integer nearest to [x], ties to the even one. *)
Definition round_even (x : Q) : Z :=
  let f := Qfloor x in
  match Qcompare (x - inject_Z f) (1 # 2) with
  | Lt => f
  | Gt => (f + 1)%Z
  | Eq => if Z.even f then f else (f + 1)%Z
  end.

(** The binary exponent of [a > 0]: [2^e <= a < 2^(e+1)]. *)
Definition ilog2 (a : Q) : Z :=
  let k := (Z.log2 (Qnum a) - Z.log2 (Zpos (Qden a)))%Z in
  if Qle_bool (pow2 k) a then k else (k - 1)%Z.

(** The exponent of the last place of the binary64 numbers around [a > 0]:
    53 significant bits, and [2^-1074] for the subnormals. *)
Definition quantum (a : Q) : Z := Z.max (ilog2 a - 52) (-1074).

(** The multiple of [2^(quantum a)] nearest to [a > 0], ties to even. *)
Definition rounded (a : Q) : Q :=
  inject_Z (round_even (a / pow2 (quantum a))) * pow2 (quantum a).

(** The binary64 number nearest to [a > 0]; overflow gives infinity. *)
Definition b64_pos (a : Q) : JsNumber :=
  if Qle_bool (pow2 1024) (rounded a) then Infinity false
  else Finite (Qred (rounded a)).

(** [- x]. *)
Definition negate (x : JsNumber) : JsNumber :=
  match x with
  | NaN => NaN
  | Infinity s => Infinity (negb s)
  | Finite q => Finite (- q)
  end.

(** Rounding of an exact result to binary64. *)
Definition b64 (q : Q) : JsNumber :=
  match Qcompare q 0 with
  | Eq => Finite 0
  | Gt => b64_pos q
  | Lt => negate (b64_pos (- q))
  end.

(** The binary64 value of a decimal literal. *)
Definition double (literal : Q) : Q :=
  match b64 literal with
  | Finite q => q
  | _ => 0
  end.

(** [q < 0]. *)
Definition negative_sign (q : Q) : bool := negb (Qle_bool 0 q).

(** [x * y]. *)
Definition fmul (x y : JsNumber) : JsNumber :=
  match x, y with
  | NaN, _ | _, NaN => NaN
  | Infinity s, Infinity s' => Infinity (xorb s s')
  | Infinity s, Finite q | Finite q, Infinity s =>
      if Qeq_bool q 0 then NaN else Infinity (xorb s (negative_sign q))
  | Finite p, Finite q => b64 (p * q)
  end.

(** [x + y]. *)
Definition fadd (x y : JsNumber) : JsNumber :=
  match x, y with
  | NaN, _ | _, NaN => NaN
  | Infinity s, Infinity s' => if Bool.eqb s s' then Infinity s else NaN
  | Infinity s, Finite _ | Finite _, Infinity s => Infinity s
  | Finite p, Finite q => b64 (p + q)
  end.

(** [x / d] for a finite, non-zero [d]; the engine only divides by the
    literal 10. *)
Definition fdiv (x : JsNumber) (d : Q) : JsNumber :=
  match x with
  | NaN => NaN
  | Infinity s => Infinity (xorb s (negative_sign d))
  | Finite p => b64 (p / d)
  end.

(** [x >= y] for a finite [y]. *)
Definition ge_number (x : JsNumber) (y : Q) : bool :=
  match x with
  | NaN => false
  | Infinity s => negb s
  | Finite p => Qle_bool y p
  end.

(** Values produced by [JSON.parse]. *)
#[local] Unset Elimination Schemes.
Inductive JsonValue : Type :=
| JNull
| JBool (b : bool)
| JNumber (q : Q)
| JString (s : string)
| JArray (items : list JsonValue)
| JObject (members : list (string * JsonValue)).
#[local] Set Elimination Schemes.

(** [x < y] on finite numbers. *)
Definition lt (x y : Q) : bool := negb (Qle_bool y x).

(** [Math.max], [Math.min] on finite numbers. *)
Definition Math_max (x y : Q) : Q := Qmax x y.
Definition Math_min (x y : Q) : Q := Qmin x y.

(** The integer nearest to [x], ties towards +infinity. *)
Definition round_half_up (x : Q) : Z := Qfloor (x + (1 # 2)).

(** [Math.round]: the nearest integer, ties towards +infinity; NaN and the
    infinities are returned as they are.  The integer nearest to a binary64
    number is a binary64 number. *)
Definition Math_round (x : JsNumber) : JsNumber :=
  match x with
  | Finite q => Finite (inject_Z (round_half_up q))
  | _ => x
  end.

(** [String.prototype.toLowerCase] on ASCII letters. *)
Definition lower_ascii (c : ascii) : ascii :=
  let n := nat_of_ascii c in
  if ((65 <=? n) && (n <=? 90))%nat then ascii_of_nat (n + 32) else c.

Fixpoint toLowerCase (s : string) : string :=
  match s with
  | EmptyString => EmptyString
  | String c t => String (lower_ascii c) (toLowerCase t)
  end.

(** [hay.includes(needle)]. *)
Fixpoint includes (hay needle : string) : bool :=
  prefix needle hay ||
  match hay with
  | EmptyString => false
  | String _ t => includes t needle
  end.

(** White space removed by [trim] and skipped by [parseFloat]
    (the ASCII part of WhiteSpace and LineTerminator). *)
Definition is_ws (c : ascii) : bool :=
  let n := nat_of_ascii c in
  ((n =? 32) || ((9 <=? n) && (n <=? 13)))%nat.

Fixpoint trimStart (s : string) : string :=
  match s with
  | String c t => if is_ws c then trimStart t else s
  | EmptyString => EmptyString
  end.

Fixpoint trimEnd (s : string) : string :=
  match s with
  | EmptyString => EmptyString
  | String c t =>
      match trimEnd t with
      | EmptyString => if is_ws c then EmptyString else String c EmptyString
      | t' => String c t'
      end
  end.

Definition trim (s : string) : string := trimEnd (trimStart s).

Definition is_digit (c : ascii) : bool :=
  let n := nat_of_ascii c in ((48 <=? n) && (n <=? 57))%nat.

Definition digit_val (c : ascii) : Z := Z.of_nat (nat_of_ascii c - 48).

(** Longest run of decimal digits at the head of [s], accumulated onto
    [acc]: the value, the number of digits read and the rest. *)
Fixpoint read_digits (acc : Z) (n : nat) (s : string) : Z * nat * string :=
  match s with
  | String c t =>
      if is_digit c then read_digits (10 * acc + digit_val c) (S n) t
      else (acc, n, s)
  | EmptyString => (acc, n, s)
  end.

Definition read_sign (s : string) : bool * string :=
  match s with
  | String "-" t => (true, t)
  | String "+" t => (false, t)
  | _ => (false, s)
  end.

(** ExponentPart, when present and well formed; otherwise 0. *)
Definition read_exponent (s : string) : Z :=
  match s with
  | String c t =>
      if (Ascii.eqb c "e" || Ascii.eqb c "E")%bool then
        let '(neg, t') := read_sign t in
        let '(e, n, _) := read_digits 0 0 t' in
        if (n =? 0)%nat then 0%Z else if neg then (- e)%Z else e
      else 0%Z
  | EmptyString => 0%Z
  end.

(** [parseFloat]: the longest prefix that is a StrDecimalLiteral, after
    leading white space, as the nearest binary64 number; [NaN] when there
    is none. *)
Definition parseFloat (input : string) : JsNumber :=
  let '(neg, s) := read_sign (trimStart input) in
  if prefix "Infinity" s then Infinity neg
  else
    let '(ip, ni, s1) := read_digits 0 0 s in
    let '(m, nf, s2) :=
      match s1 with
      | String "." t => read_digits ip 0 t
      | _ => (ip, 0%nat, s1)
      end in
    if (ni + nf =? 0)%nat then NaN
    else
      let e := (read_exponent s2 - Z.of_nat nf)%Z in
      let v := inject_Z m * Qpower 10 e in
      b64 (if neg then - v else v).

End JS.
Import JS.

(** ** Data model *)

(** Completion of a call: [inr v] is a normal return, [inl e] a throw. *)
Abbreviation Completion := (sum JsError).

Inductive FileStatus : Type := added | modified | removed | renamed.

Record FileChange : Type := {
  filename : string;
  status : FileStatus
}.

Record JiraContext : Type := {
  ticketId : option string;
  ticketStatus : option string;
  ticketType : option string;
  priority : option string
}.

(** [prData], the argument of [calculateScore]. *)
Record PrData : Type := {
  id : string;
  title : option string;
  description : option string;
  files : option (list FileChange);
  tests : option (list string);
  jiraContext : option JiraContext
}.

(** An object [{clarity, context, completeness, jiraLink}]: the shape of
    [config.scoring.weights], of [breakdown] and of [scores]. *)
Record Dimensions : Type := {
  clarity : Q;
  context : Q;
  completeness : Q;
  jiraLink : Q
}.

Record Thresholds : Type := {
  excellent : Q;
  good : Q;
  needsImprovement : Q
}.

(** [config.scoring] of [config/config.json], which the constructor copies
    into [this.weights] and [this.thresholds]. *)
Record ScoringConfig : Type := {
  weights : Dimensions;
  thresholds : Thresholds
}.

(** The four strings [getRating] returns. *)
Inductive Rating : Type := Poor | NeedsImprovement | Good | Excellent.

Definition Rating_string (r : Rating) : string :=
  match r with
  | Excellent => "excellent"
  | Good => "good"
  | NeedsImprovement => "needs-improvement"
  | Poor => "poor"
  end.

Record ScoringResult : Type := {
  totalScore : JsNumber;
  breakdown : Dimensions;
  rating : Rating;
  suggestions : list JsonValue;
  timestamp : string
}.

(** The external model, as the engine observes it.
    - [clarityReply]: the value of [response.choices[0].message.content] of
      the call in [analyzeClarityScore], or what the call (or reading that
      property) throws.
    - [suggestionReply]: the value of
      [JSON.parse(response.choices[0].message.content)] of the call in
      [generateSuggestions], or what the call or the parse throws. *)
Record ModelClient : Type := {
  clarityReply : Completion string;
  suggestionReply : Completion JsonValue
}.

(** ** Truthiness *)

(** A string property used as a condition: absent and empty are falsy. *)
Definition truthy (v : option string) : bool :=
  match v with
  | Some (String _ _) => true
  | _ => false
  end.

(** [v.length] of a string property, read only behind [v && ..]. *)
Definition length_of (v : option string) : nat :=
  match v with
  | Some s => String.length s
  | None => 0
  end.

(** [xs && xs.length > n] for an array property. *)
Definition longer_than {A : Type} (xs : option (list A)) (n : nat) : bool :=
  match xs with
  | Some l => (n <? List.length l)%nat
  | None => false
  end.

(** [object[key]] on an object literal with string values, for a key that
    [Object.prototype] does not define ([objectPrototypeNames]): [None] is
    [undefined].  The engine reads [suggestions[area]] with the names of
    the four dimensions only. *)
Fixpoint property (object : list (string * string)) (key : string)
  : option string :=
  match object with
  | [] => None
  | (k, v) :: rest => if String.eqb k key then Some v else property rest key
  end.

(** The strings left in an array after [.filter(Boolean)]. *)
Fixpoint defined (xs : list (option string)) : list string :=
  match xs with
  | [] => []
  | Some s :: rest => s :: defined rest
  | None :: rest => defined rest
  end.

(** Reading an identifier that no enclosing scope declares. *)
Definition unbound {A : Type} (identifier : string) : Completion A :=
  raise (ReferenceError (identifier ++ " is not defined")).

(** ** The engine *)

Section ScoringEngine.

Variable config : ScoringConfig.
Variable openai : ModelClient.

(** Fallback clarity scoring without AI. *)
Definition fallbackClarityScore (title description : option string) : Q :=
  let score := 5 in
  let score :=
    if (truthy title && (10 <? length_of title) && (length_of title <? 100))%nat
    then score + 2 else score in
  let score :=
    if (truthy description && (50 <? length_of description))%nat
    then score + 2 else score in
  let score :=
    if truthy title &&
       match title with
       | Some t =>
           existsb (fun type => prefix (type ++ ":") (toLowerCase t))
             ["feat"; "fix"; "docs"; "style"; "refactor"; "test"; "chore"]
       | None => false
       end
    then score + 1 else score in
  Math_max 1 (Math_min 10 score).

(** Analyze clarity using AI. *)
Definition analyzeClarityScore (title description : option string)
  : Completion Q :=
  catch
    (content <- clarityReply openai ;;
     let score := parseFloat (trim content) in
     ret (match score with
          | NaN => 5
          | Infinity negative =>
              (* Math.max(1, Math.min(10, -Infinity)) and (.., +Infinity) *)
              if negative then 1 else 10
          | Finite score => Math_max 1 (Math_min 10 score)
          end))
    (fun error => ret (fallbackClarityScore title description)).

(** Analyze context score based on description and files. *)
Definition analyzeContextScore
  (description : option string) (files : option (list FileChange)) : Q :=
  let score := 5 in
  let score :=
    if (truthy description && (100 <? length_of description))%nat
    then score + 1.5 else score in
  let score :=
    if (truthy description && (300 <? length_of description))%nat
    then score + 1 else score in
  let contextKeywords :=
    ["because"; "fixes"; "addresses"; "implements"; "refactor"] in
  let hasContext :=
    existsb
      (fun keyword =>
         match description with
         | Some d => includes (toLowerCase d) keyword
         | None => false
         end)
      contextKeywords in
  let score := if hasContext then score + 1.5 else score in
  let score :=
    match files with
    | Some fs =>
        if (0 <? List.length fs)%nat then
          let score :=
            if (List.length fs <=? 5)%nat then score + 1 else score in
          if (10 <? List.length fs)%nat then score - 1 else score
        else score
    | None => score
    end in
  Math_max 1 (Math_min 10 score).

(** Analyze completeness score. *)
Definition analyzeCompletenessScore (prData : PrData) : Q :=
  let score := 5 in
  let title := title prData in
  let description := description prData in
  let files := files prData in
  let tests := tests prData in
  let score :=
    if (truthy title && (10 <? length_of title))%nat
    then score + 1 else score in
  let score :=
    if (truthy description && (50 <? length_of description))%nat
    then score + 1 else score in
  let score := if longer_than files 0 then score + 1 else score in
  let score := if longer_than tests 0 then score + 2 else score in
  let hasDocUpdates :=
    match files with
    | Some fs =>
        existsb
          (fun file =>
             includes (toLowerCase (filename file)) "readme" ||
             includes (toLowerCase (filename file)) ".md")
          fs
    | None => false
    end in
  let score := if hasDocUpdates then score + 1 else score in
  Math_max 1 (Math_min 10 score).

(** Analyze Jira link score. *)
Definition analyzeJiraLinkScore (jiraContext : option JiraContext) : Q :=
  match jiraContext with
  | None => 0
  | Some jiraContext =>
      let score := 5 in
      let score := if truthy (ticketId jiraContext) then score + 2 else score in
      let score :=
        match ticketStatus jiraContext with
        | Some st => if String.eqb st "In Progress" then score + 1 else score
        | None => score
        end in
      let score := if truthy (ticketType jiraContext) then score + 1 else score in
      let score := if truthy (priority jiraContext) then score + 1 else score in
      Math_max 0 (Math_min 10 score)
  end.

(** Get rating based on score. *)
Definition getRating (score : JsNumber) : Rating :=
  if ge_number score (excellent (thresholds config)) then Excellent
  else if ge_number score (good (thresholds config)) then Good
  else if ge_number score (needsImprovement (thresholds config))
  then NeedsImprovement
  else Poor.


(** Fallback suggestions. *)
Definition getFallbackSuggestions (lowScoreAreas : list string) : list string :=
  let suggestions :=
    [("clarity",
      "Consider adding more descriptive title and detailed description");
     ("context", "Provide more context about why this change is needed");
     ("completeness", "Add tests and update documentation if needed");
     ("jiraLink", "Link this PR to the relevant Jira ticket")] in
  defined
    (filter truthy
       (map (fun area => property suggestions area) lowScoreAreas)).

(** [Object.entries(scores)], in property order. *)
Definition entries (scores : Dimensions) : list (string * Q) :=
  [("clarity", clarity scores);
   ("context", context scores);
   ("completeness", completeness scores);
   ("jiraLink", jiraLink scores)].

(** The areas scoring below 7, as computed at the head of the [try] block
    of [generateSuggestions]. *)
Definition lowScoreAreas (scores : Dimensions) : list string :=
  map (fun '(area, _) => area)
    (filter (fun '(_, score) => lt score 7) (entries scores)).

(** Generate AI-powered suggestions.

    [lowScoreAreas] is declared with [const] inside the [try] block, so it
    is not in scope in the [catch] clause: evaluating the argument of
    [this.getFallbackSuggestions(lowScoreAreas)] there throws a
    ReferenceError, which leaves [generateSuggestions]. *)
Definition generateSuggestions (prData : PrData) (scores : Dimensions)
  : Completion (list JsonValue) :=
  catch
    (let lowScoreAreas := lowScoreAreas scores in
     if (List.length lowScoreAreas =? 0)%nat then
       ret [JString "Great job! This PR meets all quality standards."]
     else
       suggestions <- suggestionReply openai ;;
       ret (match suggestions with
            | JArray items => items
            | _ => map JString (getFallbackSuggestions lowScoreAreas)
            end))
    (fun error =>
       lowScoreAreas <- unbound "lowScoreAreas" ;;
       ret (map JString (getFallbackSuggestions lowScoreAreas))).

(** Calculate comprehensive PR score.  [now] is
    [new Date().toISOString()]. *)
Definition calculateScore (now : string) (prData : PrData)
  : Completion ScoringResult :=
  catch
    (let title := title prData in
     let description := description prData in
     let files := files prData in
     let jiraContext := jiraContext prData in
     clarityScore <- analyzeClarityScore title description ;;
     let contextScore := analyzeContextScore description files in
     let completenessScore := analyzeCompletenessScore prData in
     let jiraLinkScore := analyzeJiraLinkScore jiraContext in
     let totalScore :=
       fadd
         (fadd
            (fadd
               (fmul (Finite clarityScore) (Finite (clarity (weights config))))
               (fmul (Finite contextScore) (Finite (context (weights config)))))
            (fmul (Finite completenessScore)
               (Finite (completeness (weights config)))))
         (fmul (Finite jiraLinkScore) (Finite (jiraLink (weights config)))) in
     suggestions <-
       generateSuggestions prData
         {| clarity := clarityScore;
            context := contextScore;
            completeness := completenessScore;
            jiraLink := jiraLinkScore |} ;;
     ret {| totalScore := fdiv (Math_round (fmul totalScore (Finite 10))) 10;
            breakdown :=
              {| clarity := clarityScore;
                 context := contextScore;
                 completeness := completenessScore;
                 jiraLink := jiraLinkScore |};
            rating := getRating totalScore;
            suggestions := suggestions;
            timestamp := now |})
    (fun error => raise (Error "Failed to calculate PR score")).

End ScoringEngine.

(** ** The formulas of the specification *)

(** The weighted sum of the four sub-scores of a breakdown, in binary64,
    term by term from the left. *)
Definition weightedTotal (config : ScoringConfig) (b : Dimensions) : JsNumber :=
  fadd
    (fadd
       (fadd (fmul (Finite (clarity b)) (Finite (clarity (weights config))))
          (fmul (Finite (context b)) (Finite (context (weights config)))))
       (fmul (Finite (completeness b)) (Finite (completeness (weights config)))))
    (fmul (Finite (jiraLink b)) (Finite (jiraLink (weights config)))).

(** Rounding to one decimal place, in binary64. *)
Definition round1 (x : JsNumber) : JsNumber :=
  fdiv (Math_round (fmul x (Finite 10))) 10.

(** The weighted sum of the four sub-scores of a breakdown, without
    rounding errors. *)
Definition exactTotal (config : ScoringConfig) (b : Dimensions) : Q :=
  clarity b * clarity (weights config) +
  context b * context (weights config) +
  completeness b * completeness (weights config) +
  jiraLink b * jiraLink (weights config).

(** Rounding to one decimal place (ties upwards), without rounding
    errors. *)
Definition exactRound1 (x : Q) : Q := inject_Z (Qfloor (x * 10 + (1 # 2))) / 10.

(** [x <= y] on numbers; NaN is below and above nothing. *)
Definition num_le (x y : JsNumber) : Prop :=
  match x, y with
  | NaN, _ | _, NaN => False
  | Infinity true, _ => True
  | _, Infinity false => True
  | Finite p, Finite q => p <= q
  | _, _ => False
  end.

(** [x < y] on numbers. *)
Definition num_lt (x y : JsNumber) : Prop :=
  match x, y with
  | NaN, _ | _, NaN => False
  | Infinity true, Infinity true => False
  | Infinity true, _ => True
  | Infinity false, _ => False
  | Finite _, Infinity s => s = false
  | Finite p, Finite q => p < q
  end.

(** The unit roundoff and the least rounding error of binary64. *)
Definition unit_roundoff : Q := pow2 (-53).
Definition least_error : Q := pow2 (-1075).

(** poor < needs-improvement < good < excellent. *)
Definition band (r : Rating) : nat :=
  match r with
  | Poor => 0
  | NeedsImprovement => 1
  | Good => 2
  | Excellent => 3
  end.

(** Size of an optional list; an absent one counts as empty. *)
Definition fileCount {A : Type} (xs : option (list A)) : nat :=
  match xs with
  | Some l => List.length l
  | None => 0
  end.

Definition rationaleKeywords : list string :=
  ["because"; "fixes"; "addresses"; "implements"; "refactor"].

(** The description contains a rationale keyword, in any letter case. *)
Definition mentionsRationale (description : option string) : bool :=
  match description with
  | Some d => existsb (fun keyword => includes (toLowerCase d) keyword) rationaleKeywords
  | None => false
  end.

(** The context formula, written after the specification. *)
Definition context_spec
  (description : option string) (files : option (list FileChange)) : Q :=
  let len := length_of description in
  let count := fileCount files in
  Math_max 1 (Math_min 10
    (5
     + (if (100 <? len)%nat then 1.5 else 0)
     + (if (300 <? len)%nat then 1 else 0)
     + (if mentionsRationale description then 1.5 else 0)
     + (if ((0 <? count) && (count <=? 5))%nat then 1 else 0)
     - (if (10 <? count)%nat then 1 else 0))).

(** [s.endsWith(suffix)]. *)
Definition endsWith (s suffix : string) : bool :=
  let n := String.length s in
  let m := String.length suffix in
  ((m <=? n)%nat && String.eqb (substring (n - m) m s) suffix)%bool.

(** File-name extensions of Markdown documents. *)
Definition markdownExtensions : list string := [".md"; ".markdown"].

(** A documentation file as the specification words it: the name contains
    "readme" or ends with a markdown extension, in any letter case. *)
Definition documentation_spec (name : string) : bool :=
  includes (toLowerCase name) "readme" ||
  existsb (endsWith (toLowerCase name)) markdownExtensions.

(** A documentation file as the engine tests it: the name contains "readme"
    or ".md", in any letter case. *)
Definition documentation_contains (name : string) : bool :=
  includes (toLowerCase name) "readme" ||
  includes (toLowerCase name) ".md".

(** The completeness formula, written after the specification, for a given
    test of documentation files. *)
Definition completeness_formula
  (documentation : string -> bool) (prData : PrData) : Q :=
  Math_max 1 (Math_min 10
    (5
     + (if (10 <? length_of (title prData))%nat then 1 else 0)
     + (if (50 <? length_of (description prData))%nat then 1 else 0)
     + (if (0 <? fileCount (files prData))%nat then 1 else 0)
     + (if (0 <? fileCount (tests prData))%nat then 2 else 0)
     + (if match files prData with
           | Some fs => existsb (fun f => documentation (filename f)) fs
           | None => false
           end
        then 1 else 0))).

Definition completeness_spec : PrData -> Q :=
  completeness_formula documentation_spec.

Definition affirmation : string :=
  "Great job! This PR meets all quality standards.".

(** One fixed suggestion for each dimension below 7, in the order clarity,
    context, completeness, ticket linkage. *)
Definition weakSuggestions (scores : Dimensions) : list string :=
  (if lt (clarity scores) 7
   then ["Consider adding more descriptive title and detailed description"]
   else []) ++
  (if lt (context scores) 7
   then ["Provide more context about why this change is needed"] else []) ++
  (if lt (completeness scores) 7
   then ["Add tests and update documentation if needed"] else []) ++
  (if lt (jiraLink scores) 7
   then ["Link this PR to the relevant Jira ticket"] else []).

(** The four sub-scores of a request, given its clarity sub-score. *)
Definition subScores (clarityScore : Q) (prData : PrData) : Dimensions :=
  {| clarity := clarityScore;
     context := analyzeContextScore (description prData) (files prData);
     completeness := analyzeCompletenessScore prData;
     jiraLink := analyzeJiraLinkScore (jiraContext prData) |}.

(** The binary64 value of a decimal with at most one decimal place, of
    magnitude at most [10^14]. *)
Definition oneDecimal (x : Q) : Prop :=
  exists k : Z,
    (Z.abs k <= 10 ^ 15)%Z /\
    exists r, b64 (inject_Z k / 10) = Finite r /\ r == x.

(** The names [Object.prototype] defines, which every object literal
    inherits. *)
Definition objectPrototypeNames : list string :=
  ["constructor"; "__defineGetter__"; "__defineSetter__"; "hasOwnProperty";
   "__lookupGetter__"; "__lookupSetter__"; "isPrototypeOf";
   "propertyIsEnumerable"; "toString"; "valueOf"; "__proto__";
   "toLocaleString"].

(** The finite binary64 number a Stdlib [spec_float] denotes. *)
Definition SF2Number (f : spec_float) : JsNumber :=
  match f with
  | S754_zero _ => Finite 0
  | S754_infinity s => Infinity s
  | S754_nan => NaN
  | S754_finite s m e =>
      Finite (Qred ((if s then - 1 else 1) * inject_Z (Zpos m) * pow2 e))
  end.

(** A small integer as a Stdlib binary64 [spec_float]. *)
Definition SF64 (n : Z) : spec_float := binary_normalize 53 1024 n 0 false.

(** The fixed suggestion of an area, if it has one. *)
Definition suggestionFor (area : string) : option string :=
  property
    [("clarity",
      "Consider adding more descriptive title and detailed description");
     ("context", "Provide more context about why this change is needed");
     ("completeness", "Add tests and update documentation if needed");
     ("jiraLink", "Link this PR to the relevant Jira ticket")]
    area.

(** The title starts with a conventional-commit type and a colon, in any
    letter case. *)
Definition conventionalPrefix (title : option string) : bool :=
  match title with
  | Some t =>
      existsb (fun type => prefix (type ++ ":") (toLowerCase t))
        ["feat"; "fix"; "docs"; "style"; "refactor"; "test"; "chore"]
  | None => false
  end.

(** ** Example configuration and inputs *)

Module Fixtures.

(** The weights documented in the README (30%, 25%, 25%, 20%) with
    thresholds 9 / 7 / 5. *)
Definition config : ScoringConfig :=
  {| weights :=
       {| clarity := double 0.3; context := double 0.25;
          completeness := double 0.25; jiraLink := double 0.2 |};
     thresholds :=
       {| excellent := 9; good := 7; needsImprovement := 5 |} |}.

(** A model client whose every call is rejected. *)
Definition unavailable : ModelClient :=
  {| clarityReply := inl (Error "Request timed out.");
     suggestionReply := inl (Error "Request timed out.") |}.

(** A model client that answers the clarity prompt with [content] and the
    suggestion prompt with text that parses to [json]. *)
Definition answering (content : string) (json : JsonValue) : ModelClient :=
  {| clarityReply := inr content; suggestionReply := inr json |}.

Definition file (name : string) : FileChange :=
  {| filename := name; status := modified |}.

(** Title "x", empty description, no files, no tests, no ticket. *)
Definition bare : PrData :=
  {| id := "PR-1"; title := Some "x"; description := Some "";
     files := Some []; tests := None; jiraContext := None |}.

(** 124 characters, none of the rationale keywords. *)
Definition plain : string :=
  "Adds the OAuth2 login page, the callback route and the session cookie; the old basic-auth form stays until the next release.".

Definition ticket : JiraContext :=
  {| ticketId := Some "PRA-42"; ticketStatus := Some "Done";
     ticketType := Some "Story"; priority := None |}.

(** Context 7.5, completeness 10, ticket linkage 8. *)
Definition oauth : PrData :=
  {| id := "PR-2"; title := Some "feat: add OAuth2 login";
     description := Some plain;
     files := Some [file "src/login.js"; file "test/login.test.js";
                    file "README.md"];
     tests := Some ["test/login.test.js"];
     jiraContext := Some ticket |}.

(** Context 5, completeness 6, ticket linkage 9. *)
Definition triaged : PrData :=
  {| id := "PR-5"; title := Some "Update the login page";
     description := None; files := Some []; tests := None;
     jiraContext :=
       Some {| ticketId := Some "PRA-7"; ticketStatus := Some "Done";
               ticketType := Some "Task"; priority := Some "High" |} |}.

End Fixtures.

(** ** Arithmetic of the clamps *)

Lemma clamp_bounds (lo hi x : Q) :
  lo <= hi -> lo <= Math_max lo (Math_min hi x) <= hi.
Proof.
  intros Hlh. unfold Math_max, Math_min. split.
  - apply Q.le_max_l.
  - apply Q.max_lub; [exact Hlh | apply Q.le_min_l].
Qed.

Lemma lt_false (x y : Q) : lt x y = false <-> y <= x.
Proof.
  unfold lt. rewrite negb_false_iff. apply Qle_bool_iff.
Qed.

(** One step through the monadic code, leaving the evaluators folded. *)
Ltac engine_step :=
  cbn -[analyzeContextScore analyzeCompletenessScore analyzeJiraLinkScore
        generateSuggestions getFallbackSuggestions lowScoreAreas getRating
        Math_round fmul fadd fdiv].

(** Closed comparisons of rationals, by evaluation. *)
Ltac qle_eval := apply Qle_bool_imp_le; vm_compute; reflexivity.
Ltac qrange_eval := split; qle_eval.

(** ** Binary64 arithmetic: powers of two *)

Lemma two_nonzero : ~ 2 == 0.
Proof. discriminate. Qed.

Lemma pow2_pos (z : Z) : 0 < pow2 z.
Proof. apply Qpower_0_lt. reflexivity. Qed.

Lemma pow2_add (a b : Z) : pow2 (a + b) == pow2 a * pow2 b.
Proof. apply Qpower_plus, two_nonzero. Qed.

Lemma pow2_succ (a : Z) : pow2 (a + 1) == 2 * pow2 a.
Proof. rewrite pow2_add. change (pow2 1) with 2. ring. Qed.

Lemma pow2_le (a b : Z) : (a <= b)%Z -> pow2 a <= pow2 b.
Proof. intros H. apply Qpower_le_compat_l; [exact H | discriminate]. Qed.

Lemma pow2_lt_inv (a b : Z) : pow2 a < pow2 b -> (a < b)%Z.
Proof. intros H. apply (Qpower_lt_compat_l_inv 2); [exact H | reflexivity]. Qed.

Lemma pow2_Z (z : Z) : (0 <= z)%Z -> pow2 z == inject_Z (2 ^ z).
Proof. intros H. unfold pow2. rewrite (Zpower_Qpower 2 z H). reflexivity. Qed.

(** ** Rounding to the nearest integer *)

Lemma Qfloor_frac (x : Q) :
  0 <= x - inject_Z (Qfloor x) /\ x - inject_Z (Qfloor x) < 1.
Proof.
  pose proof (Qfloor_le x) as Hle.
  pose proof (Qlt_floor x) as Hlt.
  rewrite inject_Z_plus in Hlt. change (inject_Z 1) with 1 in Hlt.
  split; lra.
Qed.

Lemma round_even_cases (x : Q) :
  (round_even x = Qfloor x /\ x - inject_Z (Qfloor x) <= 1 # 2) \/
  (round_even x = (Qfloor x + 1)%Z /\ 1 # 2 <= x - inject_Z (Qfloor x)).
Proof.
  unfold round_even.
  destruct (Qcompare_spec (x - inject_Z (Qfloor x)) (1 # 2)) as [E | L | G].
  - destruct (Z.even (Qfloor x)); [left | right]; split;
      try reflexivity; rewrite E; apply Qle_refl.
  - left. split; [reflexivity | apply Qlt_le_weak; exact L].
  - right. split; [reflexivity | apply Qlt_le_weak; exact G].
Qed.

Lemma round_even_bounds (x : Q) :
  x - (1 # 2) <= inject_Z (round_even x) <= x + (1 # 2).
Proof.
  destruct (Qfloor_frac x) as [H0 H1].
  destruct (round_even_cases x) as [[-> H] | [-> H]].
  - split; lra.
  - rewrite inject_Z_plus. change (inject_Z 1) with 1. split; lra.
Qed.

Lemma round_even_Z (n : Z) : round_even (inject_Z n) = n.
Proof.
  unfold round_even. rewrite Qfloor_Z.
  assert (E : inject_Z n - inject_Z n == 0) by ring.
  destruct (Qcompare_spec (inject_Z n - inject_Z n) (1 # 2)) as [H | H | H];
    rewrite E in H; try reflexivity; discriminate H.
Qed.

Lemma round_even_monotone (x y : Q) :
  x <= y -> (round_even x <= round_even y)%Z.
Proof.
  intros Hxy.
  pose proof (Qfloor_resp_le x y Hxy) as Hf.
  destruct (Qfloor_frac x) as [Hx0 Hx1].
  destruct (Qfloor_frac y) as [Hy0 Hy1].
  destruct (Z.eq_dec (Qfloor x) (Qfloor y)) as [E | N].
  - unfold round_even. rewrite <- E.
    rewrite <- E in Hy0, Hy1.
    destruct (Qcompare_spec (x - inject_Z (Qfloor x)) (1 # 2)) as [Hx | Hx | Hx];
      destruct (Qcompare_spec (y - inject_Z (Qfloor x)) (1 # 2)) as [Hy | Hy | Hy];
      try destruct (Z.even (Qfloor x)); try lia; exfalso; lra.
  - assert (Hlt : (Qfloor x + 1 <= Qfloor y)%Z) by lia.
    destruct (round_even_cases x) as [[-> _] | [-> _]];
      destruct (round_even_cases y) as [[-> _] | [-> _]]; lia.
Qed.

Lemma round_even_ge (x : Q) (n : Z) :
  inject_Z n <= x -> (n <= round_even x)%Z.
Proof.
  intros H. rewrite <- (round_even_Z n). apply round_even_monotone. exact H.
Qed.

Lemma round_even_le (x : Q) (n : Z) :
  x <= inject_Z n -> (round_even x <= n)%Z.
Proof.
  intros H. rewrite <- (round_even_Z n). apply round_even_monotone. exact H.
Qed.

(** ** The binary exponent *)

Lemma log2_bounds (n : Z) :
  (0 < n)%Z ->
  pow2 (Z.log2 n) <= inject_Z n /\ inject_Z n < 2 * pow2 (Z.log2 n).
Proof.
  intros Hn. destruct (Z.log2_spec n Hn) as [Hlo Hhi].
  pose proof (Z.log2_nonneg n) as H0.
  rewrite <- pow2_succ, !pow2_Z by lia.
  split; [rewrite <- Zle_Qle; exact Hlo | rewrite <- Zlt_Qlt].
  replace (Z.log2 n + 1)%Z with (Z.succ (Z.log2 n)) by lia. exact Hhi.
Qed.

Lemma ilog2_spec (a : Q) :
  0 < a -> pow2 (ilog2 a) <= a /\ a < pow2 (ilog2 a + 1).
Proof.
  intros Ha.
  assert (Hn : (0 < Qnum a)%Z).
  { destruct a as [n d]. unfold Qlt in Ha. cbn in *. lia. }
  destruct (log2_bounds (Qnum a) Hn) as [Hn1 Hn2].
  destruct (log2_bounds (Zpos (Qden a)) eq_refl) as [Hd1 Hd2].
  set (ln := Z.log2 (Qnum a)) in *.
  set (ld := Z.log2 (Zpos (Qden a))) in *.
  assert (Ea : a * inject_Z (Zpos (Qden a)) == inject_Z (Qnum a)).
  { destruct a as [n d]. unfold Qeq. cbn. lia. }
  set (N := inject_Z (Qnum a)) in *.
  set (D := inject_Z (Zpos (Qden a))) in *.
  pose proof (pow2_pos ln) as HA. pose proof (pow2_pos ld) as HB.
  pose proof (pow2_pos (ln - ld)) as HK.
  assert (EK : pow2 (ln - ld) * pow2 ld == pow2 ln).
  { rewrite <- pow2_add. replace (ln - ld + ld)%Z with ln by lia. reflexivity. }
  set (A := pow2 ln) in *. set (B := pow2 ld) in *.
  assert (Hhi : a < 2 * pow2 (ln - ld)).
  { set (K := pow2 (ln - ld)) in *. nra. }
  assert (Hlo : pow2 (ln - ld) < 2 * a).
  { set (K := pow2 (ln - ld)) in *. nra. }
  unfold ilog2. fold ln ld.
  destruct (Qle_bool (pow2 (ln - ld)) a) eqn:E.
  - apply Qle_bool_iff in E. rewrite pow2_succ. split; [exact E | exact Hhi].
  - assert (Hlt : a < pow2 (ln - ld)).
    { apply Qnot_le_lt. intros H. apply Qle_bool_iff in H. congruence. }
    replace (ln - ld - 1 + 1)%Z with (ln - ld)%Z by lia.
    split; [ | exact Hlt].
    assert (E2 : pow2 (ln - ld) == 2 * pow2 (ln - ld - 1)).
    { rewrite <- pow2_succ. replace (ln - ld - 1 + 1)%Z with (ln - ld)%Z by lia.
      reflexivity. }
    lra.
Qed.

Lemma ilog2_monotone (p q : Q) :
  0 < p -> p <= q -> (ilog2 p <= ilog2 q)%Z.
Proof.
  intros Hp Hpq.
  destruct (ilog2_spec p Hp) as [Hp1 _].
  destruct (ilog2_spec q) as [_ Hq2]; [lra | ].
  assert (H : (ilog2 p < ilog2 q + 1)%Z) by (apply pow2_lt_inv; lra).
  lia.
Qed.

(** ** Rounding to binary64 *)

Lemma div_pow2 (a : Q) (t : Z) : a / pow2 t * pow2 t == a.
Proof.
  pose proof (pow2_pos t) as H. field. intros E. rewrite E in H.
  discriminate H.
Qed.

Lemma div_pow2_le (a b : Q) (t : Z) : a <= b -> a / pow2 t <= b / pow2 t.
Proof.
  intros H. pose proof (pow2_pos t) as HP.
  apply Qmult_le_compat_r; [exact H | ].
  apply Qlt_le_weak, Qinv_lt_0_compat. exact HP.
Qed.

Lemma pow2_div (e t : Z) : pow2 e / pow2 t == pow2 (e - t).
Proof. symmetry. apply Qpower_minus, two_nonzero. Qed.

Lemma rounded_error (a : Q) :
  a - pow2 (quantum a) * (1 # 2) <= rounded a /\
  rounded a <= a + pow2 (quantum a) * (1 # 2).
Proof.
  unfold rounded.
  pose proof (pow2_pos (quantum a)) as HP.
  pose proof (div_pow2 a (quantum a)) as Ha.
  destruct (round_even_bounds (a / pow2 (quantum a))) as [Hlo Hhi].
  set (x := a / pow2 (quantum a)) in *.
  set (M := inject_Z (round_even x)) in *.
  set (P := pow2 (quantum a)) in *.
  split; nra.
Qed.

Lemma quantum_bound (a : Q) :
  0 < a -> pow2 (quantum a) <= a * pow2 (-52) + pow2 (-1074).
Proof.
  intros Ha. destruct (ilog2_spec a Ha) as [Hlo _].
  pose proof (pow2_pos (-52)) as H52. pose proof (pow2_pos (-1074)) as Hmin.
  unfold quantum.
  destruct (Z.max_spec (ilog2 a - 52) (-1074)) as [[_ ->] | [_ ->]].
  - nra.
  - replace (ilog2 a - 52)%Z with (ilog2 a + -52)%Z by lia.
    rewrite pow2_add. nra.
Qed.

Lemma rounded_nonneg (a : Q) : 0 < a -> 0 <= rounded a.
Proof.
  intros Ha. unfold rounded.
  pose proof (pow2_pos (quantum a)) as HP.
  assert (H : (0 <= round_even (a / pow2 (quantum a)))%Z).
  { apply round_even_ge. change (inject_Z 0) with 0.
    apply Qle_shift_div_l; [exact HP | lra]. }
  rewrite Zle_Qle in H. change (inject_Z 0) with 0 in H.
  apply Qmult_le_0_compat; [exact H | lra].
Qed.

Lemma rounded_monotone (p q : Q) :
  0 < p -> p <= q -> rounded p <= rounded q.
Proof.
  intros Hp Hpq. assert (Hq : 0 < q) by lra.
  pose proof (ilog2_monotone p q Hp Hpq) as He.
  destruct (ilog2_spec p Hp) as [_ Hp2].
  destruct (ilog2_spec q Hq) as [Hq1 _].
  destruct (Z.eq_dec (quantum p) (quantum q)) as [E | N].
  - unfold rounded. rewrite E.
    pose proof (pow2_pos (quantum q)) as HP.
    apply Qmult_le_compat_r; [ | lra].
    rewrite <- Zle_Qle. apply round_even_monotone, div_pow2_le. exact Hpq.
  - assert (Ht : (quantum p < quantum q)%Z /\ quantum q = (ilog2 q - 52)%Z /\
                 (ilog2 p + 1 <= ilog2 q)%Z)
      by (unfold quantum in *; lia).
    destruct Ht as (Hlt & Eq & Hstep).
    apply Qle_trans with (pow2 (ilog2 q)).
    + unfold rounded.
      pose proof (pow2_pos (quantum p)) as HP.
      assert (Hd : (0 <= ilog2 q - quantum p)%Z) by lia.
      assert (HM : (round_even (p / pow2 (quantum p))
                    <= 2 ^ (ilog2 q - quantum p))%Z).
      { apply round_even_le. rewrite <- (pow2_Z _ Hd), <- pow2_div.
        apply div_pow2_le.
        pose proof (pow2_le (ilog2 p + 1) (ilog2 q) Hstep). lra. }
      rewrite Zle_Qle, <- (pow2_Z _ Hd) in HM.
      assert (E2 : pow2 (ilog2 q) == pow2 (ilog2 q - quantum p) * pow2 (quantum p)).
      { rewrite <- pow2_add. replace (ilog2 q - quantum p + quantum p)%Z
          with (ilog2 q) by lia. reflexivity. }
      rewrite E2. apply Qmult_le_compat_r; [exact HM | lra].
    + unfold rounded.
      pose proof (pow2_pos (quantum q)) as HP.
      assert (HM : (2 ^ 52 <= round_even (q / pow2 (quantum q)))%Z).
      { apply round_even_ge. rewrite <- (pow2_Z 52) by lia.
        replace 52%Z with (ilog2 q - quantum q)%Z by lia.
        rewrite <- pow2_div. apply div_pow2_le. exact Hq1. }
      rewrite Zle_Qle, <- (pow2_Z 52) in HM by lia.
      assert (E2 : pow2 (ilog2 q) == pow2 52 * pow2 (quantum q)).
      { rewrite <- pow2_add. replace (52 + quantum q)%Z with (ilog2 q) by lia.
        reflexivity. }
      rewrite E2. apply Qmult_le_compat_r; [exact HM | lra].
Qed.

Lemma b64_pos_cases (a : Q) :
  0 < a ->
  (b64_pos a = Infinity false /\ pow2 1024 <= rounded a) \/
  (exists r, b64_pos a = Finite r /\ r == rounded a /\ 0 <= r /\
             rounded a < pow2 1024).
Proof.
  intros Ha. unfold b64_pos.
  destruct (Qle_bool (pow2 1024) (rounded a)) eqn:E.
  - left. split; [reflexivity | apply Qle_bool_iff; exact E].
  - right. exists (Qred (rounded a)).
    split; [reflexivity | ]. split; [apply Qred_correct | ].
    split; [rewrite Qred_correct; apply rounded_nonneg; exact Ha | ].
    apply Qnot_le_lt. intros H. apply Qle_bool_iff in H. congruence.
Qed.

Lemma b64_pos_monotone (p q : Q) :
  0 < p -> p <= q -> num_le (b64_pos p) (b64_pos q).
Proof.
  intros Hp Hpq. assert (Hq : 0 < q) by lra.
  pose proof (rounded_monotone p q Hp Hpq) as Hr.
  destruct (b64_pos_cases q Hq) as [[-> _] | (rq & -> & Eq & _ & Hfin)].
  - destruct (b64_pos_cases p Hp) as [[-> _] | (rp & -> & _)]; exact I.
  - destruct (b64_pos_cases p Hp) as [[_ Hover] | (rp & -> & Ep & _)].
    + exfalso. lra.
    + cbn. rewrite Ep, Eq. exact Hr.
Qed.

Lemma num_le_neg (x y : JsNumber) : num_le x y -> num_le (negate y) (negate x).
Proof.
  destruct x as [ | [ | ] | p], y as [ | [ | ] | q]; cbn; try tauto.
  intros H. lra.
Qed.

Lemma num_le_zero_b64_pos (a : Q) : 0 < a -> num_le (Finite 0) (b64_pos a).
Proof.
  intros Ha.
  destruct (b64_pos_cases a Ha) as [[-> _] | (r & -> & _ & H0 & _)];
    [exact I | exact H0].
Qed.

Lemma num_le_trans (x y z : JsNumber) :
  num_le x y -> num_le y z -> num_le x z.
Proof.
  destruct x as [ | [ | ] | p], y as [ | [ | ] | q], z as [ | [ | ] | r];
    cbn; try tauto.
  intros H1 H2. lra.
Qed.

(** Rounding to binary64 is monotone. *)
Lemma b64_monotone (p q : Q) : p <= q -> num_le (b64 p) (b64 q).
Proof.
  intros Hpq. unfold b64.
  destruct (Qcompare_spec p 0) as [Ep | Lp | Gp];
    destruct (Qcompare_spec q 0) as [Eq | Lq | Gq]; try (exfalso; lra).
  - cbn. lra.
  - apply num_le_zero_b64_pos. exact Gq.
  - change (Finite 0) with (negate (Finite 0)).
    apply num_le_neg, num_le_zero_b64_pos. lra.
  - apply num_le_neg, b64_pos_monotone; lra.
  - apply num_le_trans with (Finite 0).
    + change (Finite 0) with (negate (Finite 0)).
      apply num_le_neg, num_le_zero_b64_pos. lra.
    + apply num_le_zero_b64_pos. exact Gq.
  - apply b64_pos_monotone; lra.
Qed.

Lemma b64_pos_error (a r : Q) :
  0 < a -> b64_pos a = Finite r ->
  a - (a * unit_roundoff + least_error) <= r /\
  r <= a + (a * unit_roundoff + least_error).
Proof.
  intros Ha Hr.
  destruct (b64_pos_cases a Ha) as [[E _] | (r' & E & Er & _)];
    rewrite E in Hr; [discriminate Hr | ].
  injection Hr as <-.
  destruct (rounded_error a) as [Hlo Hhi].
  pose proof (quantum_bound a Ha) as HP.
  assert (E52 : pow2 (-52) == 2 * pow2 (-53)) by reflexivity.
  assert (Emin : pow2 (-1074) == 2 * pow2 (-1075)) by reflexivity.
  rewrite E52, Emin in HP.
  unfold unit_roundoff, least_error. rewrite Er.
  set (u := pow2 (-53)) in *. set (eta := pow2 (-1075)) in *.
  set (P := pow2 (quantum a)) in *. split; nra.
Qed.

(** The rounding error of a result of magnitude at most [C]. *)
Lemma b64_error (C q r : Q) :
  - C <= q -> q <= C -> b64 q = Finite r ->
  q - (C * unit_roundoff + least_error) <= r /\
  r <= q + (C * unit_roundoff + least_error).
Proof.
  intros Hlo Hhi Hr.
  assert (Hu : 0 < unit_roundoff) by apply pow2_pos.
  assert (He : 0 < least_error) by apply pow2_pos.
  unfold b64 in Hr.
  destruct (Qcompare_spec q 0) as [E | L | G].
  - injection Hr as <-. rewrite E. split; nra.
  - destruct (b64_pos (- q)) as [ | s | r'] eqn:Hpos; try discriminate Hr.
    injection Hr as <-.
    destruct (b64_pos_error (- q) r') as [H1 H2]; [lra | exact Hpos | ].
    split; nra.
  - destruct (b64_pos_error q r G Hr) as [H1 H2]. split; nra.
Qed.

(** A result between two finite binary64 numbers is finite. *)
Lemma b64_between (lo hi q l h : Q) :
  b64 lo = Finite l -> b64 hi = Finite h -> lo <= q -> q <= hi ->
  exists r, b64 q = Finite r /\ l <= r /\ r <= h.
Proof.
  intros Hl Hh Hlo Hhi.
  pose proof (b64_monotone lo q Hlo) as H1.
  pose proof (b64_monotone q hi Hhi) as H2.
  rewrite Hl in H1. rewrite Hh in H2.
  destruct (b64 q) as [ | [ | ] | r]; cbn in H1, H2; try tauto.
  exists r. auto.
Qed.

(** ** The semantic evaluator *)

(** A failing model call is absorbed: the clarity sub-score is the
    heuristic's value for the same title and description. *)
Lemma analyzeClarityScore_call_fails openai title description e :
  clarityReply openai = inl e ->
  analyzeClarityScore openai title description
  = inr (fallbackClarityScore title description).
Proof.
  intros H. unfold analyzeClarityScore. rewrite H. reflexivity.
Qed.

Lemma fallbackClarityScore_range title description :
  1 <= fallbackClarityScore title description <= 10.
Proof. unfold fallbackClarityScore. apply clamp_bounds. qle_eval. Qed.

(** [analyzeClarityScore] always returns, with a value in [1,10]. *)
Lemma analyzeClarityScore_total openai title description :
  exists score,
    analyzeClarityScore openai title description = inr score /\
    1 <= score <= 10.
Proof.
  unfold analyzeClarityScore.
  destruct (clarityReply openai) as [e | content]; cbn.
  - eexists; split; [reflexivity | apply fallbackClarityScore_range].
  - destruct (parseFloat (trim content)) as [ | [ | ] | q ];
      eexists; (split; [reflexivity | ]);
      try qrange_eval.
    apply clamp_bounds. qle_eval.
Qed.

(** C2, as stated, fails.  The model answers "N/A", which [parseFloat] does
    not parse; the title and description earn every bonus of the heuristic
    (10), yet the clarity sub-score returned is 5. *)
Lemma clarity_unparsable_is_not_fallback :
  let openai := Fixtures.answering "N/A" JNull in
  let title := Some "feat: add OAuth2 login" in
  let description := Some Fixtures.plain in
  parseFloat (trim "N/A") = NaN /\
  analyzeClarityScore openai title description = inr 5 /\
  fallbackClarityScore title description == 10 /\
  ~ 5 == fallbackClarityScore title description.
Proof.
  cbv zeta. repeat split; try (vm_compute; reflexivity).
  vm_compute. discriminate.
Qed.

(** C2, amended: when the model's reply does not parse as a number (empty
    or non-numeric text) the clarity sub-score is the constant 5, whatever
    the title and description, and nothing is thrown. *)
Theorem analyzeClarityScore_unparsable openai title description content :
  clarityReply openai = inr content ->
  parseFloat (trim content) = NaN ->
  analyzeClarityScore openai title description = inr 5.
Proof.
  intros Hreply Hnan. unfold analyzeClarityScore.
  rewrite Hreply. cbn. rewrite Hnan. reflexivity.
Qed.

Lemma analyzeClarityScore_unparsable_witness :
  analyzeClarityScore (Fixtures.answering "" JNull)
    (Some "feat: add OAuth2 login") (Some Fixtures.plain) = inr 5.
Proof.
  apply (analyzeClarityScore_unparsable
           (Fixtures.answering "" JNull) _ _ "");
    vm_compute; reflexivity.
Defined.

(** ** The suggestion generator *)

Lemma lowScoreAreas_nil scores :
  lowScoreAreas scores = [] <->
  7 <= clarity scores /\ 7 <= context scores /\
  7 <= completeness scores /\ 7 <= jiraLink scores.
Proof.
  unfold lowScoreAreas, entries. cbn.
  rewrite <- !lt_false.
  destruct (lt (clarity scores) 7), (lt (context scores) 7),
    (lt (completeness scores) 7), (lt (jiraLink scores) 7); cbn;
    split; intros H; try discriminate H; try tauto;
    destruct H as (H1 & H2 & H3 & H4); discriminate.
Qed.

(** When some area is weak and the model call (or the parse of its reply)
    throws, the handler itself throws. *)
Lemma generateSuggestions_call_fails openai prData scores e :
  suggestionReply openai = inl e ->
  lowScoreAreas scores <> [] ->
  generateSuggestions openai prData scores
  = inl (ReferenceError "lowScoreAreas is not defined").
Proof.
  intros Hreply Hweak. unfold generateSuggestions.
  destruct (lowScoreAreas scores) as [ | area areas]; [congruence | ].
  cbn. rewrite Hreply. reflexivity.
Qed.

(** Whatever [calculateScore] catches, it rethrows as one fixed error. *)
Lemma calculateScore_call_fails config openai now prData e :
  suggestionReply openai = inl e ->
  jiraContext prData = None ->
  calculateScore config openai now prData
  = inl (Error "Failed to calculate PR score").
Proof.
  intros Hreply Hjira. unfold calculateScore.
  destruct (analyzeClarityScore_total openai (title prData) (description prData))
    as (c & -> & _).
  rewrite Hjira. engine_step.
  rewrite (generateSuggestions_call_fails _ _ _ e Hreply); [reflexivity | ].
  rewrite lowScoreAreas_nil. cbn. intros (_ & _ & _ & H).
  revert H. apply Qlt_not_le. reflexivity.
Qed.

(** C1 asks that a failing model never makes [calculateScore] throw.  The
    engine does throw: with the model unavailable and a request that has a
    weak dimension, [calculateScore] ends in "Failed to calculate PR score"
    instead of returning a result, because the handler of
    [generateSuggestions] reads [lowScoreAreas] outside the block that
    declares it. *)
Theorem calculateScore_model_unavailable_throws :
  calculateScore Fixtures.config Fixtures.unavailable
    "2025-01-27T00:00:00.000Z" Fixtures.bare
  = inl (Error "Failed to calculate PR score").
Proof. vm_compute. reflexivity. Qed.

(** ** Ticket linkage *)

Lemma analyzeJiraLinkScore_present (jc : JiraContext) :
  5 <= analyzeJiraLinkScore (Some jc) <= 10.
Proof.
  unfold analyzeJiraLinkScore.
  destruct (truthy (ticketId jc)), (ticketStatus jc) as [st | ],
    (truthy (ticketType jc)), (truthy (priority jc));
    try destruct (String.eqb st "In Progress");
    qrange_eval.
Qed.

(** C10: with a ticket context the ticket-linkage sub-score is at least 5;
    over all inputs it is 0 (no ticket context) or in [5,10], so no value
    strictly between 0 and 5 is ever produced. *)
Theorem analyzeJiraLinkScore_zero_or_at_least_5 :
  (forall jc, 5 <= analyzeJiraLinkScore (Some jc)) /\
  analyzeJiraLinkScore None = 0 /\
  (forall jiraContext,
      analyzeJiraLinkScore jiraContext == 0 \/
      5 <= analyzeJiraLinkScore jiraContext <= 10) /\
  (forall jiraContext,
      ~ (0 < analyzeJiraLinkScore jiraContext /\
         analyzeJiraLinkScore jiraContext < 5)).
Proof.
  repeat split.
  - apply analyzeJiraLinkScore_present.
  - intros [jc | ]; [right; apply analyzeJiraLinkScore_present | left; reflexivity].
  - intros [jc | ] [Hpos Hlt].
    + apply (Qlt_not_le _ _ Hlt), analyzeJiraLinkScore_present.
    + revert Hpos. apply Qle_not_lt. apply Qle_refl.
Qed.

(** ** The heuristic evaluators stay in range *)

Lemma analyzeContextScore_range description files :
  1 <= analyzeContextScore description files <= 10.
Proof. unfold analyzeContextScore. apply clamp_bounds. qle_eval. Qed.

Lemma analyzeCompletenessScore_range prData :
  1 <= analyzeCompletenessScore prData <= 10.
Proof. unfold analyzeCompletenessScore. apply clamp_bounds. qle_eval. Qed.

Lemma analyzeJiraLinkScore_zero jiraContext :
  analyzeJiraLinkScore jiraContext == 0 <-> jiraContext = None.
Proof.
  destruct jiraContext as [jc | ]; split; intros H;
    try reflexivity; try discriminate H.
  exfalso. destruct (analyzeJiraLinkScore_present jc) as [H5 _].
  rewrite H in H5. revert H5. apply Qlt_not_le. reflexivity.
Qed.

(** C5: every sub-score is in its range - clarity, context and completeness
    in [1,10], ticket linkage in [0,10] - and ticket linkage is 0 exactly
    when the request has no ticket context.  The clarity evaluator returns
    for every behaviour of the model. *)
Theorem sub_scores_in_range (openai : ModelClient) (prData : PrData) :
  (exists clarityScore,
      analyzeClarityScore openai (title prData) (description prData)
      = inr clarityScore /\
      1 <= clarityScore <= 10) /\
  1 <= analyzeContextScore (description prData) (files prData) <= 10 /\
  1 <= analyzeCompletenessScore prData <= 10 /\
  0 <= analyzeJiraLinkScore (jiraContext prData) <= 10 /\
  (analyzeJiraLinkScore (jiraContext prData) == 0 <->
   jiraContext prData = None).
Proof.
  split; [apply analyzeClarityScore_total | ].
  split; [apply analyzeContextScore_range | ].
  split; [apply analyzeCompletenessScore_range | ].
  split; [ | apply analyzeJiraLinkScore_zero].
  destruct (jiraContext prData) as [jc | ].
  - destruct (analyzeJiraLinkScore_present jc) as [H5 H10].
    split; [ | exact H10].
    apply Qle_trans with 5; [qle_eval | exact H5].
  - qrange_eval.
Qed.

(** ** The composite scorer *)

(** What a result of [calculateScore] is made of. *)
Lemma calculateScore_inr config openai now prData r :
  calculateScore config openai now prData = inr r ->
  exists clarityScore,
    analyzeClarityScore openai (title prData) (description prData)
    = inr clarityScore /\
    breakdown r =
      {| clarity := clarityScore;
         context := analyzeContextScore (description prData) (files prData);
         completeness := analyzeCompletenessScore prData;
         jiraLink := analyzeJiraLinkScore (jiraContext prData) |} /\
    generateSuggestions openai prData (breakdown r) = inr (suggestions r) /\
    totalScore r = round1 (weightedTotal config (breakdown r)) /\
    rating r = getRating config (weightedTotal config (breakdown r)) /\
    timestamp r = now.
Proof.
  unfold calculateScore.
  destruct (analyzeClarityScore_total openai (title prData) (description prData))
    as (c & Hc & _).
  rewrite Hc. engine_step.
  destruct (generateSuggestions openai prData _) as [e | s] eqn:Hs;
    engine_step; intros H; [discriminate H | ].
  injection H as <-. exists c. engine_step.
  repeat split; try reflexivity; assumption.
Qed.

(** [calculateScore] returns whenever the suggestion call does. *)
Lemma calculateScore_returns config openai now prData json :
  suggestionReply openai = inr json ->
  exists r, calculateScore config openai now prData = inr r.
Proof.
  intros Hreply. unfold calculateScore, generateSuggestions.
  destruct (analyzeClarityScore_total openai (title prData) (description prData))
    as (c & -> & _).
  engine_step. rewrite Hreply.
  destruct (lowScoreAreas _); engine_step; eexists; reflexivity.
Qed.

(** The breakdown of every result is in range. *)
Lemma calculateScore_breakdown_in_range config openai now prData r :
  calculateScore config openai now prData = inr r ->
  1 <= clarity (breakdown r) <= 10 /\
  1 <= context (breakdown r) <= 10 /\
  1 <= completeness (breakdown r) <= 10 /\
  0 <= jiraLink (breakdown r) <= 10 /\
  (jiraLink (breakdown r) == 0 <-> jiraContext prData = None).
Proof.
  intros H. apply calculateScore_inr in H.
  destruct H as (c & Hc & -> & _). cbn [clarity context completeness jiraLink].
  destruct (analyzeClarityScore_total openai (title prData) (description prData))
    as (c' & Hc' & Hrange).
  assert (c = c') by congruence. subst c'.
  split; [exact Hrange | ].
  split; [apply analyzeContextScore_range | ].
  split; [apply analyzeCompletenessScore_range | ].
  split; [ | apply analyzeJiraLinkScore_zero].
  destruct (jiraContext prData) as [jc | ]; [ | qrange_eval].
  destruct (analyzeJiraLinkScore_present jc) as [H5 H10].
  split; [apply Qle_trans with 5; [qle_eval | exact H5] | exact H10].
Qed.

(** The model's rounding agrees with the binary64 operations of the
    Standard Library's [SpecFloat] (precision 53, maximal exponent 1024) on
    the quotients, products and sums below, and on the weighted sum of the
    sub-scores 9, 5, 6, 9. *)
Example b64_agrees_with_SpecFloat :
  let mul := SFmul 53 1024 in
  let add := SFadd 53 1024 in
  let div := SFdiv 53 1024 in
  let tenths (n : Z) := div (SF64 n) (SF64 10) in
  let quarter := div (SF64 1) (SF64 4) in
  SF2Number (tenths 3%Z) = b64 0.3 /\
  SF2Number (tenths 2%Z) = b64 0.2 /\
  SF2Number (tenths 72%Z) = b64 7.2 /\
  SF2Number (div (SF64 1) (SF64 3)) = b64 (1 # 3) /\
  SF2Number (mul (SF64 9) (tenths 3%Z)) = fmul (Finite 9) (b64 0.3) /\
  SF2Number (add (tenths 1%Z) (tenths 2%Z)) = fadd (b64 0.1) (b64 0.2) /\
  SF2Number
    (add (add (add (mul (SF64 9) (tenths 3%Z)) (mul (SF64 5) quarter))
            (mul (SF64 6) quarter))
       (mul (SF64 9) (tenths 2%Z)))
  = weightedTotal Fixtures.config
      {| clarity := 9; context := 5; completeness := 6; jiraLink := 9 |}.
Proof. cbv zeta. repeat split; vm_compute; reflexivity. Qed.

(** C4, as stated, fails when the rounding is read as exact arithmetic.
    For [Fixtures.triaged] with the model answering "9" the sub-scores are
    9, 5, 6, 9; their weighted sum is exactly 7.25, which rounds to 7.3, but
    the binary64 sum is just below 7.25 and the reported total is 7.2. *)
Lemma totalScore_differs_from_exact_rounding :
  exists r,
    calculateScore Fixtures.config (Fixtures.answering "9" JNull)
      "2025-01-27T00:00:00.000Z" Fixtures.triaged = inr r /\
    breakdown r
    = {| clarity := 9; context := 5; completeness := 6; jiraLink := 9 |} /\
    exactTotal Fixtures.config (breakdown r) == 7.25 /\
    exactRound1 (exactTotal Fixtures.config (breakdown r)) == 7.3 /\
    totalScore r = b64 7.2 /\
    totalScore r
    <> b64 (exactRound1 (exactTotal Fixtures.config (breakdown r))).
Proof.
  eexists. split; [vm_compute; reflexivity | ].
  repeat split; try (vm_compute; reflexivity).
  vm_compute. discriminate.
Qed.

Lemma round_half_up_bounds (x : Q) :
  x - (1 # 2) < inject_Z (round_half_up x) /\
  inject_Z (round_half_up x) <= x + (1 # 2).
Proof.
  unfold round_half_up.
  pose proof (Qfloor_le (x + (1 # 2))) as Hle.
  pose proof (Qlt_floor (x + (1 # 2))) as Hlt.
  rewrite inject_Z_plus in Hlt.
  change (inject_Z 1) with 1 in Hlt.
  split; lra.
Qed.

(** C4, amended: the reported total is [Math.round(sum * 10) / 10] computed
    in binary64, where [sum] is the binary64 weighted sum of the four
    sub-scores of the same result's breakdown, added from the left; the
    rounding is applied once, after the sum.  When [sum * 10] is finite the
    total is the binary64 value of [k / 10] for the integer [k] nearest to
    that product (ties upwards). *)
Theorem totalScore_is_rounded_weighted_sum config openai now prData r :
  calculateScore config openai now prData = inr r ->
  let sum :=
    fadd
      (fadd
         (fadd
            (fmul (Finite (clarity (breakdown r)))
               (Finite (clarity (weights config))))
            (fmul (Finite (context (breakdown r)))
               (Finite (context (weights config)))))
         (fmul (Finite (completeness (breakdown r)))
            (Finite (completeness (weights config)))))
      (fmul (Finite (jiraLink (breakdown r)))
         (Finite (jiraLink (weights config)))) in
  totalScore r = fdiv (Math_round (fmul sum (Finite 10))) 10 /\
  (forall x,
      fmul sum (Finite 10) = Finite x ->
      exists k : Z,
        x - (1 # 2) < inject_Z k /\ inject_Z k <= x + (1 # 2) /\
        totalScore r = b64 (inject_Z k / 10)).
Proof.
  intros H sum. apply calculateScore_inr in H.
  destruct H as (c & _ & _ & _ & Htotal & _).
  assert (E : totalScore r = fdiv (Math_round (fmul sum (Finite 10))) 10)
    by exact Htotal.
  split; [exact E | ].
  intros x Hx. exists (round_half_up x).
  destruct (round_half_up_bounds x) as [Hlo Hhi].
  split; [exact Hlo | ]. split; [exact Hhi | ].
  rewrite E, Hx. reflexivity.
Qed.

Lemma totalScore_is_rounded_weighted_sum_witness :
  exists r,
    calculateScore Fixtures.config (Fixtures.answering "9" JNull)
      "2025-01-27T00:00:00.000Z" Fixtures.triaged = inr r /\
    totalScore r = b64 7.2 /\
    totalScore r
    = fdiv
        (Math_round
           (fmul
              (fadd
                 (fadd
                    (fadd
                       (fmul (Finite (clarity (breakdown r))) (b64 0.3))
                       (fmul (Finite (context (breakdown r))) (b64 0.25)))
                    (fmul (Finite (completeness (breakdown r))) (b64 0.25)))
                 (fmul (Finite (jiraLink (breakdown r))) (b64 0.2)))
              (Finite 10))) 10.
Proof.
  eexists. split; [vm_compute; reflexivity | ].
  split; [vm_compute; reflexivity | ].
  apply (totalScore_is_rounded_weighted_sum Fixtures.config
           (Fixtures.answering "9" JNull) "2025-01-27T00:00:00.000Z"
           Fixtures.triaged).
  vm_compute. reflexivity.
Defined.

(** Rounding each weighted term instead would give another total: with
    sub-scores 5, 7.5, 7, 0 and the README weights the sum is 5.125. *)
Example rounding_per_dimension_differs :
  let w := weights Fixtures.config in
  round1
    (fadd
       (fadd
          (fadd (fmul (Finite 5) (Finite (clarity w)))
             (fmul (Finite 7.5) (Finite (context w))))
          (fmul (Finite 7) (Finite (completeness w))))
       (fmul (Finite 0) (Finite (jiraLink w))))
  = b64 5.1 /\
  fadd
    (fadd
       (fadd (round1 (fmul (Finite 5) (Finite (clarity w))))
          (round1 (fmul (Finite 7.5) (Finite (context w)))))
       (round1 (fmul (Finite 7) (Finite (completeness w)))))
    (round1 (fmul (Finite 0) (Finite (jiraLink w))))
  = b64 5.2.
Proof. cbv zeta. split; vm_compute; reflexivity. Qed.

(** C3, as stated, fails.  For [Fixtures.oauth] with the model answering
    "10" the weighted sum is 8.975 up to rounding: the reported total is
    9.0, which the thresholds map to "excellent", but the reported rating is
    "good". *)
Lemma rating_differs_from_band_of_totalScore :
  exists r,
    calculateScore Fixtures.config (Fixtures.answering "10" JNull)
      "2025-01-27T00:00:00.000Z" Fixtures.oauth = inr r /\
    (exists sum,
        weightedTotal Fixtures.config (breakdown r) = Finite sum /\
        8.97 < sum /\ sum < 8.98) /\
    totalScore r = Finite 9 /\
    getRating Fixtures.config (totalScore r) = Excellent /\
    rating r = Good /\
    rating r <> getRating Fixtures.config (totalScore r).
Proof.
  eexists. split; [vm_compute; reflexivity | ].
  split; [eexists; split; [vm_compute; reflexivity | split; reflexivity] | ].
  repeat split; try (vm_compute; reflexivity).
  vm_compute. discriminate.
Qed.

(** C3, amended: the rating is the band of the weighted sum as the engine
    computes it (in binary64), before it is rounded; the total reported
    next to it is that sum rounded to one decimal place. *)
Theorem rating_is_band_of_unrounded_sum config openai now prData r :
  calculateScore config openai now prData = inr r ->
  rating r = getRating config (weightedTotal config (breakdown r)) /\
  totalScore r = round1 (weightedTotal config (breakdown r)).
Proof.
  intros H. apply calculateScore_inr in H.
  destruct H as (c & _ & _ & _ & Htotal & Hrating & _). split; assumption.
Qed.

Lemma rating_is_band_of_unrounded_sum_witness :
  exists r,
    calculateScore Fixtures.config (Fixtures.answering "9" JNull)
      "2025-01-27T00:00:00.000Z"
      {| id := "PR-6"; title := Some "x"; description := None;
         files := Some []; tests := None;
         jiraContext := jiraContext Fixtures.triaged |} = inr r /\
    breakdown r
    = {| clarity := 9; context := 5; completeness := 5; jiraLink := 9 |} /\
    rating r = NeedsImprovement /\
    totalScore r = Finite 7 /\
    rating r = getRating Fixtures.config (weightedTotal Fixtures.config (breakdown r)) /\
    totalScore r = round1 (weightedTotal Fixtures.config (breakdown r)).
Proof.
  eexists. split; [vm_compute; reflexivity | ].
  split; [reflexivity | ].
  split; [reflexivity | ].
  split; [reflexivity | ].
  apply (rating_is_band_of_unrounded_sum Fixtures.config
           (Fixtures.answering "9" JNull) "2025-01-27T00:00:00.000Z"
           {| id := "PR-6"; title := Some "x"; description := None;
              files := Some []; tests := None;
              jiraContext := jiraContext Fixtures.triaged |}).
  vm_compute. reflexivity.
Defined.

(** ** Rating bands *)

Lemma ge_number_finite (p y : Q) : ge_number (Finite p) y = true <-> y <= p.
Proof. apply Qle_bool_iff. Qed.

Lemma ge_number_finite_false (p y : Q) :
  ge_number (Finite p) y = false -> p < y.
Proof.
  cbn. intros H. apply Qnot_le_lt. intros Hle.
  apply Qle_bool_iff in Hle. congruence.
Qed.

(** A greater number reaches every threshold a smaller one reaches. *)
Lemma ge_number_monotone (x x' : JsNumber) (y : Q) :
  num_le x x' -> ge_number x y = true -> ge_number x' y = true.
Proof.
  destruct x as [ | [ | ] | p], x' as [ | [ | ] | p']; cbn;
    try tauto; try discriminate.
  intros Hle H. apply Qle_bool_iff. apply Qle_bool_iff in H. lra.
Qed.

(** A number that reaches a threshold reaches every lower one. *)
Lemma ge_number_threshold (x : JsNumber) (y y' : Q) :
  y <= y' -> ge_number x y' = true -> ge_number x y = true.
Proof.
  destruct x as [ | s | p]; cbn; try tauto.
  intros Hle H. apply Qle_bool_iff. apply Qle_bool_iff in H. lra.
Qed.

Lemma num_lt_le (x y : JsNumber) : num_lt x y -> num_le x y.
Proof.
  destruct x as [ | [ | ] | p], y as [ | [ | ] | q]; cbn;
    try tauto; try discriminate.
  apply Qlt_le_weak.
Qed.

(** If every threshold that [a] reaches is also reached by [b], the band of
    [a] is not above the band of [b]. *)
Lemma getRating_dominated config (a b : JsNumber) :
  (forall t, ge_number a t = true -> ge_number b t = true) ->
  (band (getRating config a) <= band (getRating config b))%nat.
Proof.
  intros Hab. unfold getRating.
  destruct (ge_number a (excellent (thresholds config))) eqn:E1.
  { apply Hab in E1. rewrite E1. apply Nat.le_refl. }
  destruct (ge_number a (good (thresholds config))) eqn:G1.
  { apply Hab in G1. rewrite G1.
    destruct (ge_number b (excellent (thresholds config))); cbn; lia. }
  destruct (ge_number a (needsImprovement (thresholds config))) eqn:N1.
  { apply Hab in N1. rewrite N1.
    destruct (ge_number b (excellent (thresholds config))),
      (ge_number b (good (thresholds config))); cbn; lia. }
  cbn. lia.
Qed.

(** [getRating] never lowers the band when the score grows, for any
    thresholds. *)
Lemma getRating_monotone config (t1 t2 : JsNumber) :
  num_le t1 t2 ->
  (band (getRating config t1) <= band (getRating config t2))%nat.
Proof.
  intros Hle. apply getRating_dominated.
  intros t. apply ge_number_monotone. exact Hle.
Qed.

(** C9: with non-decreasing thresholds, a lower total never gets a higher
    band than a higher total. *)
Theorem getRating_monotonic config (t1 t2 : JsNumber) :
  needsImprovement (thresholds config) <= good (thresholds config) ->
  good (thresholds config) <= excellent (thresholds config) ->
  num_lt t1 t2 ->
  (band (getRating config t1) <= band (getRating config t2))%nat.
Proof.
  intros _ _ Hlt. apply getRating_monotone, num_lt_le. exact Hlt.
Qed.

Lemma getRating_monotonic_witness :
  (band (getRating Fixtures.config (Finite 6.9))
   <= band (getRating Fixtures.config (Finite 7)))%nat.
Proof.
  apply (getRating_monotonic Fixtures.config (Finite 6.9) (Finite 7)).
  - qle_eval.
  - qle_eval.
  - reflexivity.
Defined.

(** ** The heuristics against their stated formulas *)

Lemma guarded_length (v : option string) (n : nat) :
  (truthy v && (n <? length_of v))%nat = (n <? length_of v)%nat.
Proof.
  destruct v as [[ | c s] | ]; cbn; try reflexivity.
Qed.

Lemma longer_than_fileCount {A : Type} (xs : option (list A)) (n : nat) :
  longer_than xs n = (n <? fileCount xs)%nat.
Proof. destruct xs; reflexivity. Qed.

(** C6: the context sub-score is base 5, +1.5 for a description longer than
    100, +1 more for one longer than 300, +1.5 for a rationale keyword,
    +1 for 1 to 5 changed files, -1 for more than 10, clamped to [1,10];
    an empty description with an empty file list scores 5. *)
Theorem analyzeContextScore_formula :
  (forall description files,
      analyzeContextScore description files == context_spec description files) /\
  analyzeContextScore (Some "") (Some []) == 5.
Proof.
  split; [ | vm_compute; reflexivity].
  intros description files.
  unfold analyzeContextScore, context_spec.
  rewrite !guarded_length.
  assert (Hkw :
    existsb
      (fun keyword =>
         match description with
         | Some d => includes (toLowerCase d) keyword
         | None => false
         end)
      ["because"; "fixes"; "addresses"; "implements"; "refactor"]
    = mentionsRationale description)
    by (destruct description; reflexivity).
  rewrite Hkw.
  destruct (100 <? length_of description)%nat,
    (300 <? length_of description)%nat,
    (mentionsRationale description);
    (destruct files as [fs | ]; cbn [fileCount];
     [ destruct (Nat.ltb_spec 0 (List.length fs)),
         (Nat.leb_spec (List.length fs) 5),
         (Nat.ltb_spec 10 (List.length fs));
       try lia; vm_compute; reflexivity
     | vm_compute; reflexivity ]).
Qed.

(** C7, as stated, fails.  One changed file, "data/customers.mdb": its name
    neither contains "readme" nor ends with a markdown extension, so the
    stated formula gives 6; the engine finds ".md" inside the name and
    gives 7. *)
Lemma completeness_counts_md_inside_name :
  let prData :=
    {| id := "PR-3"; title := Some "x"; description := None;
       files := Some [Fixtures.file "data/customers.mdb"];
       tests := None; jiraContext := None |} in
  documentation_spec "data/customers.mdb" = false /\
  completeness_spec prData == 6 /\
  analyzeCompletenessScore prData == 7 /\
  ~ analyzeCompletenessScore prData == completeness_spec prData.
Proof.
  cbv zeta. repeat split; try (vm_compute; reflexivity).
  vm_compute. discriminate.
Qed.

(** C7, amended: the completeness sub-score is base 5, +1 for a title longer
    than 10, +1 for a description longer than 50, +1 for at least one
    changed file, +2 for at least one test reference, +1 if some changed
    file name contains "readme" or ".md" in any letter case, clamped to
    [1,10]. *)
Theorem analyzeCompletenessScore_formula (prData : PrData) :
  analyzeCompletenessScore prData
  == completeness_formula documentation_contains prData.
Proof.
  unfold analyzeCompletenessScore, completeness_formula, documentation_contains.
  rewrite !guarded_length, !longer_than_fileCount.
  destruct (10 <? length_of (title prData))%nat,
    (50 <? length_of (description prData))%nat,
    (0 <? fileCount (files prData))%nat,
    (0 <? fileCount (tests prData))%nat,
    (match files prData with
     | Some fs =>
         existsb
           (fun file =>
              includes (toLowerCase (filename file)) "readme" ||
              includes (toLowerCase (filename file)) ".md") fs
     | None => false
     end);
    vm_compute; reflexivity.
Qed.

(** ** Suggestions *)

Lemma getFallbackSuggestions_weak scores :
  getFallbackSuggestions (lowScoreAreas scores) = weakSuggestions scores.
Proof.
  unfold weakSuggestions, lowScoreAreas, entries. cbn [filter].
  destruct (lt (clarity scores) 7), (lt (context scores) 7),
    (lt (completeness scores) 7), (lt (jiraLink scores) 7);
    reflexivity.
Qed.

Lemma weakSuggestions_NoDup scores : NoDup (weakSuggestions scores).
Proof.
  unfold weakSuggestions.
  destruct (lt (clarity scores) 7), (lt (context scores) 7),
    (lt (completeness scores) 7), (lt (jiraLink scores) 7);
    cbn; repeat constructor; cbn; intuition discriminate.
Qed.

(** The fallback taken inside the [try] block: the reply parses, but not
    to an array. *)
Lemma generateSuggestions_not_an_array openai prData scores json :
  suggestionReply openai = inr json ->
  (forall items, json <> JArray items) ->
  lowScoreAreas scores <> [] ->
  generateSuggestions openai prData scores
  = inr (map JString (weakSuggestions scores)).
Proof.
  intros Hreply Hshape Hweak. unfold generateSuggestions.
  rewrite <- getFallbackSuggestions_weak.
  destruct (lowScoreAreas scores) as [ | area areas] eqn:Hareas; [congruence | ].
  cbn -[getFallbackSuggestions]. rewrite Hreply.
  destruct json; try reflexivity.
  exfalso. eapply Hshape. reflexivity.
Qed.

(** C8: when all four sub-scores are at least 7, [generateSuggestions]
    returns the one affirmation string, whatever the model does; otherwise
    the deterministic fallback yields one fixed suggestion for each
    dimension below 7 and none for the others, in the order clarity,
    context, completeness, ticket linkage, without duplicates. *)
Theorem generateSuggestions_fallback_per_weak_dimension
  (openai : ModelClient) (prData : PrData) (scores : Dimensions) :
  (7 <= clarity scores -> 7 <= context scores ->
   7 <= completeness scores -> 7 <= jiraLink scores ->
   generateSuggestions openai prData scores = inr [JString affirmation]) /\
  getFallbackSuggestions (lowScoreAreas scores) = weakSuggestions scores /\
  NoDup (getFallbackSuggestions (lowScoreAreas scores)) /\
  (forall json,
      suggestionReply openai = inr json ->
      (forall items, json <> JArray items) ->
      ~ (7 <= clarity scores /\ 7 <= context scores /\
         7 <= completeness scores /\ 7 <= jiraLink scores) ->
      generateSuggestions openai prData scores
      = inr (map JString (weakSuggestions scores))).
Proof.
  repeat split.
  - intros H1 H2 H3 H4.
    assert (Hnil : lowScoreAreas scores = [])
      by (apply lowScoreAreas_nil; auto).
    unfold generateSuggestions. rewrite Hnil. reflexivity.
  - apply getFallbackSuggestions_weak.
  - rewrite getFallbackSuggestions_weak. apply weakSuggestions_NoDup.
  - intros json Hreply Hshape Hweak.
    apply generateSuggestions_not_an_array with json; try assumption.
    rewrite lowScoreAreas_nil. exact Hweak.
Qed.

Lemma generateSuggestions_fallback_per_weak_dimension_witness :
  generateSuggestions Fixtures.unavailable Fixtures.oauth
    {| clarity := 10; context := 7.5; completeness := 10; jiraLink := 8 |}
  = inr [JString affirmation] /\
  generateSuggestions (Fixtures.answering "6" (JString "none")) Fixtures.bare
    {| clarity := 6; context := 5; completeness := 7; jiraLink := 0 |}
  = inr [JString "Consider adding more descriptive title and detailed description";
         JString "Provide more context about why this change is needed";
         JString "Link this PR to the relevant Jira ticket"].
Proof.
  split.
  - apply (generateSuggestions_fallback_per_weak_dimension
             Fixtures.unavailable Fixtures.oauth
             {| clarity := 10; context := 7.5; completeness := 10;
                jiraLink := 8 |});
      qle_eval.
  - apply (generateSuggestions_fallback_per_weak_dimension
             (Fixtures.answering "6" (JString "none")) Fixtures.bare
             {| clarity := 6; context := 5; completeness := 7;
                jiraLink := 0 |}) with (json := JString "none").
    + reflexivity.
    + intros items H. discriminate H.
    + intros (H & _). revert H. apply Qlt_not_le. reflexivity.
Defined.


(** * Further properties of the engine *)

(** ** The composite scorer, case by case *)

Lemma generateSuggestions_cases openai prData scores :
  generateSuggestions openai prData scores =
  match lowScoreAreas scores with
  | [] => inr [JString affirmation]
  | _ :: _ =>
      match suggestionReply openai with
      | inl _ => inl (ReferenceError "lowScoreAreas is not defined")
      | inr (JArray items) => inr items
      | inr _ => inr (map JString (getFallbackSuggestions (lowScoreAreas scores)))
      end
  end.
Proof.
  unfold generateSuggestions.
  destruct (lowScoreAreas scores) as [ | area areas]; [reflexivity | ].
  cbn -[getFallbackSuggestions].
  destruct (suggestionReply openai) as [e | [ | | | | | ]]; reflexivity.
Qed.

Lemma calculateScore_cases config openai now prData clarityScore :
  analyzeClarityScore openai (title prData) (description prData)
  = inr clarityScore ->
  calculateScore config openai now prData =
  match generateSuggestions openai prData (subScores clarityScore prData) with
  | inl _ => inl (Error "Failed to calculate PR score")
  | inr suggestions =>
      inr {| totalScore :=
               round1 (weightedTotal config (subScores clarityScore prData));
             breakdown := subScores clarityScore prData;
             rating :=
               getRating config
                 (weightedTotal config (subScores clarityScore prData));
             suggestions := suggestions;
             timestamp := now |}
  end.
Proof.
  intros Hc. unfold calculateScore. rewrite Hc. engine_step.
  fold (subScores clarityScore prData).
  destruct (generateSuggestions openai prData (subScores clarityScore prData));
    reflexivity.
Qed.

(** X1: [calculateScore] throws exactly when some sub-score is below 7 and
    the suggestion call (or the parse of its reply) throws; what it throws
    is then always the same error, whatever the cause was. *)
Theorem calculateScore_throws_iff config openai now prData e :
  calculateScore config openai now prData = inl e <->
  e = Error "Failed to calculate PR score" /\
  (exists cause, suggestionReply openai = inl cause) /\
  (exists clarityScore,
      analyzeClarityScore openai (title prData) (description prData)
      = inr clarityScore /\
      lowScoreAreas (subScores clarityScore prData) <> []).
Proof.
  destruct (analyzeClarityScore_total openai (title prData) (description prData))
    as (c & Hc & _).
  rewrite (calculateScore_cases config openai now prData c Hc).
  rewrite generateSuggestions_cases.
  split.
  - destruct (lowScoreAreas (subScores c prData)) as [ | a l] eqn:Hl;
      [discriminate | ].
    destruct (suggestionReply openai) as [cause | [ | | | | | ]];
      try discriminate.
    intros H. injection H as <-. split; [reflexivity | ].
    split; [exists cause; reflexivity | ].
    exists c. split; [exact Hc | ]. rewrite Hl. discriminate.
  - intros (-> & (cause & Hcause) & (c' & Hc' & Hweak)).
    assert (c' = c) by congruence. subst c'.
    destruct (lowScoreAreas (subScores c prData)); [congruence | ].
    rewrite Hcause. reflexivity.
Qed.


(** ** Rounding the total *)

Lemma div10 (x : Q) : x / 10 == x * (1 # 10).
Proof. reflexivity. Qed.

Lemma round_half_up_ge (x : Q) (k : Z) :
  inject_Z k - (1 # 2) <= x -> (k <= round_half_up x)%Z.
Proof.
  intros H. unfold round_half_up. rewrite <- (Qfloor_Z k).
  apply Qfloor_resp_le. lra.
Qed.

Lemma round_half_up_le (x : Q) (k : Z) :
  x < inject_Z k + (1 # 2) -> (round_half_up x <= k)%Z.
Proof.
  intros H. destruct (round_half_up_bounds x) as [_ Hhi].
  assert (Hlt : (round_half_up x < k + 1)%Z).
  { rewrite Zlt_Qlt, inject_Z_plus. change (inject_Z 1) with 1. lra. }
  lia.
Qed.

(** A result between 0 and 1000 is finite, not negative, and exceeds the
    exact value by less than a millionth. *)
Lemma b64_small (q : Q) :
  0 <= q -> q <= 1000 ->
  exists r, b64 q = Finite r /\ 0 <= r /\ r <= q + (1 # 1000000).
Proof.
  intros H0 H1.
  assert (E0 : b64 0 = Finite 0) by (vm_compute; reflexivity).
  assert (E1 : b64 1000 = Finite 1000) by (vm_compute; reflexivity).
  destruct (b64_between 0 1000 q 0 1000 E0 E1 H0 H1) as (r & Hr & Hr0 & _).
  exists r. split; [exact Hr | ]. split; [exact Hr0 | ].
  assert (Hlo : - (1000) <= q) by lra.
  destruct (b64_error 1000 q r Hlo H1 Hr) as [_ Hhi].
  assert (Hsmall : 1000 * unit_roundoff + least_error <= 1 # 1000000)
    by qle_eval.
  lra.
Qed.

Lemma weighted_term_bounds (c w : Q) :
  0 <= c -> c <= 10 -> 0 <= w -> 0 <= c * w /\ c * w <= 10 * w.
Proof. intros Hc0 Hc1 Hw. split; nra. Qed.

(** X3: with weights that are not negative and sum to at most 1, the
    reported total is finite and lies in [0,10]. *)
Theorem totalScore_in_range config openai now prData r :
  0 <= clarity (weights config) ->
  0 <= context (weights config) ->
  0 <= completeness (weights config) ->
  0 <= jiraLink (weights config) ->
  clarity (weights config) + context (weights config) +
  completeness (weights config) + jiraLink (weights config) <= 1 ->
  calculateScore config openai now prData = inr r ->
  exists total, totalScore r = Finite total /\ 0 <= total <= 10.
Proof.
  intros W1 W2 W3 W4 Wsum H.
  destruct (calculateScore_breakdown_in_range _ _ _ _ _ H)
    as ((C1 & C2) & (X1 & X2) & (P1 & P2) & (J1 & J2) & _).
  apply calculateScore_inr in H.
  destruct H as (c & _ & _ & _ & -> & _).
  unfold round1, weightedTotal.
  set (c1 := clarity (breakdown r)) in *. set (w1 := clarity (weights config)) in *.
  set (c2 := context (breakdown r)) in *. set (w2 := context (weights config)) in *.
  set (c3 := completeness (breakdown r)) in *.
  set (w3 := completeness (weights config)) in *.
  set (c4 := jiraLink (breakdown r)) in *. set (w4 := jiraLink (weights config)) in *.
  destruct (weighted_term_bounds c1 w1) as [M1 N1]; [lra | lra | lra | ].
  destruct (weighted_term_bounds c2 w2) as [M2 N2]; [lra | lra | lra | ].
  destruct (weighted_term_bounds c3 w3) as [M3 N3]; [lra | lra | lra | ].
  destruct (weighted_term_bounds c4 w4) as [M4 N4]; [lra | lra | lra | ].
  set (t1 := c1 * w1) in *. set (t2 := c2 * w2) in *.
  set (t3 := c3 * w3) in *. set (t4 := c4 * w4) in *.
  cbn [fmul]. fold t1 t2 t3 t4.
  destruct (b64_small t1) as (p1 & -> & A1 & B1); [lra | lra | ].
  destruct (b64_small t2) as (p2 & -> & A2 & B2); [lra | lra | ].
  destruct (b64_small t3) as (p3 & -> & A3 & B3); [lra | lra | ].
  destruct (b64_small t4) as (p4 & -> & A4 & B4); [lra | lra | ].
  cbn [fadd].
  destruct (b64_small (p1 + p2)) as (s1 & -> & S1 & T1); [lra | lra | ].
  cbn [fadd].
  destruct (b64_small (s1 + p3)) as (s2 & -> & S2 & T2); [lra | lra | ].
  cbn [fadd].
  destruct (b64_small (s2 + p4)) as (s3 & -> & S3 & T3); [lra | lra | ].
  cbn [fmul].
  destruct (b64_small (s3 * 10)) as (x & -> & Hx0 & Hx1); [lra | lra | ].
  cbn [Math_round fdiv].
  assert (Hn0 : (0 <= round_half_up x)%Z).
  { apply round_half_up_ge. change (inject_Z 0) with 0. lra. }
  assert (Hn1 : (round_half_up x <= 100)%Z).
  { apply round_half_up_le. change (inject_Z 100) with 100. lra. }
  rewrite Zle_Qle in Hn0, Hn1.
  change (inject_Z 0) with 0 in Hn0. change (inject_Z 100) with 100 in Hn1.
  assert (E0 : b64 0 = Finite 0) by (vm_compute; reflexivity).
  assert (E10 : b64 10 = Finite 10) by (vm_compute; reflexivity).
  assert (Hq0 : 0 <= inject_Z (round_half_up x) / 10) by (rewrite div10; lra).
  assert (Hq1 : inject_Z (round_half_up x) / 10 <= 10) by (rewrite div10; lra).
  destruct (b64_between 0 10 _ 0 10 E0 E10 Hq0 Hq1) as (total & Ht & Ht0 & Ht1).
  exists total. auto.
Qed.

Lemma totalScore_in_range_witness :
  exists r total,
    calculateScore Fixtures.config (Fixtures.answering "10" JNull)
      "2025-01-27T00:00:00.000Z" Fixtures.oauth = inr r /\
    totalScore r = Finite total /\ 0 <= total <= 10.
Proof.
  eexists.
  destruct (totalScore_in_range Fixtures.config
              (Fixtures.answering "10" JNull) "2025-01-27T00:00:00.000Z"
              Fixtures.oauth
              {| totalScore := Finite 9;
                 breakdown :=
                   {| clarity := 10; context := 7.5; completeness := 10;
                      jiraLink := 8 |};
                 rating := Good;
                 suggestions := [JString affirmation];
                 timestamp := "2025-01-27T00:00:00.000Z" |})
    as (total & Htotal & Hrange).
  - qle_eval.
  - qle_eval.
  - qle_eval.
  - qle_eval.
  - qle_eval.
  - vm_compute. reflexivity.
  - exists total. split; [vm_compute; reflexivity | ]. split; assumption.
Defined.

(** The binary64 value of a decimal with at most one decimal place that a
    number reaches is still reached after the number is rounded to one
    decimal place. *)
Lemma threshold_kept_by_rounding (t : Q) (x : JsNumber) :
  oneDecimal t -> ge_number x t = true -> ge_number (round1 x) t = true.
Proof.
  intros (k & Hk & r & Hr & Er) Hge.
  destruct x as [ | s | p]; [discriminate Hge | | ].
  { destruct s; [discriminate Hge | reflexivity]. }
  apply ge_number_finite in Hge.
  assert (Hk1 : inject_Z k <= inject_Z (10 ^ 15)) by (rewrite <- Zle_Qle; lia).
  assert (Hk2 : inject_Z (- 10 ^ 15) <= inject_Z k) by (rewrite <- Zle_Qle; lia).
  change (inject_Z (10 ^ 15)) with 1000000000000000 in Hk1.
  change (inject_Z (- 10 ^ 15)) with (- (1000000000000000)) in Hk2.
  assert (Hsmall :
    10 * (100000000000000 * unit_roundoff + least_error)
    + (2000000000000000 * unit_roundoff + least_error) <= 1 # 2)
    by qle_eval.
  assert (Hu : 0 < unit_roundoff) by apply pow2_pos.
  assert (He : 0 < least_error) by apply pow2_pos.
  set (u := unit_roundoff) in *. set (eta := least_error) in *.
  (* the threshold is close to k / 10 *)
  assert (Hq1 : - (100000000000000) <= inject_Z k / 10)
    by (rewrite div10; lra).
  assert (Hq2 : inject_Z k / 10 <= 100000000000000) by (rewrite div10; lra).
  destruct (b64_error _ _ _ Hq1 Hq2 Hr) as [Hr1 Hr2].
  fold u eta in Hr1, Hr2. rewrite div10 in Hr1, Hr2.
  (* ten times the threshold, rounded *)
  assert (Elo : b64 (- (10000000000000000)) = Finite (- (10000000000000000)))
    by (vm_compute; reflexivity).
  assert (Ehi : b64 10000000000000000 = Finite 10000000000000000)
    by (vm_compute; reflexivity).
  assert (Hy1 : - (10000000000000000) <= r * 10) by lra.
  assert (Hy2 : r * 10 <= 10000000000000000) by lra.
  destruct (b64_between _ _ _ _ _ Elo Ehi Hy1 Hy2) as (y0 & Hy0 & _ & _).
  assert (Hz1 : - (2000000000000000) <= r * 10) by lra.
  assert (Hz2 : r * 10 <= 2000000000000000) by lra.
  destruct (b64_error _ _ _ Hz1 Hz2 Hy0) as [Hy _]. fold u eta in Hy.
  assert (Hle : r * 10 <= p * 10) by lra.
  pose proof (b64_monotone _ _ Hle) as Hmono.
  rewrite Hy0 in Hmono.
  unfold round1. cbn [fmul].
  destruct (b64 (p * 10)) as [ | [ | ] | y]; cbn [num_le] in Hmono;
    [destruct Hmono | destruct Hmono | reflexivity | ].
  cbn [Math_round fdiv].
  assert (Hyk : inject_Z k - (1 # 2) <= y) by lra.
  pose proof (round_half_up_ge y k Hyk) as Hn.
  rewrite Zle_Qle in Hn.
  assert (Hdiv : inject_Z k / 10 <= inject_Z (round_half_up y) / 10)
    by (rewrite !div10; lra).
  pose proof (b64_monotone _ _ Hdiv) as Hfinal.
  rewrite Hr in Hfinal.
  destruct (b64 (inject_Z (round_half_up y) / 10)) as [ | [ | ] | r'];
    cbn [num_le] in Hfinal;
    [destruct Hfinal | destruct Hfinal | reflexivity | ].
  apply ge_number_finite. lra.
Qed.

(** X4: when the thresholds have at most one decimal place, the reported
    rating is never a higher band than the band of the reported total. *)
Theorem rating_not_above_band_of_totalScore config openai now prData r :
  oneDecimal (excellent (thresholds config)) ->
  oneDecimal (good (thresholds config)) ->
  oneDecimal (needsImprovement (thresholds config)) ->
  calculateScore config openai now prData = inr r ->
  (band (rating r) <= band (getRating config (totalScore r)))%nat.
Proof.
  intros HE HG HN H. apply calculateScore_inr in H.
  destruct H as (c & _ & _ & _ & -> & -> & _).
  set (x := weightedTotal config (breakdown r)).
  unfold getRating.
  destruct (ge_number x (excellent (thresholds config))) eqn:E1.
  { rewrite (threshold_kept_by_rounding _ _ HE E1). apply Nat.le_refl. }
  destruct (ge_number x (good (thresholds config))) eqn:G1.
  { rewrite (threshold_kept_by_rounding _ _ HG G1).
    destruct (ge_number (round1 x) (excellent (thresholds config))); cbn; lia. }
  destruct (ge_number x (needsImprovement (thresholds config))) eqn:N1.
  { rewrite (threshold_kept_by_rounding _ _ HN N1).
    destruct (ge_number (round1 x) (excellent (thresholds config))),
      (ge_number (round1 x) (good (thresholds config))); cbn; lia. }
  cbn. lia.
Qed.

Lemma rating_not_above_band_of_totalScore_witness :
  exists r,
    calculateScore Fixtures.config (Fixtures.answering "10" JNull)
      "2025-01-27T00:00:00.000Z" Fixtures.oauth = inr r /\
    (band (rating r) <= band (getRating Fixtures.config (totalScore r)))%nat.
Proof.
  eexists. split; [vm_compute; reflexivity | ].
  apply (rating_not_above_band_of_totalScore Fixtures.config
           (Fixtures.answering "10" JNull) "2025-01-27T00:00:00.000Z"
           Fixtures.oauth).
  - exists 90%Z. split; [vm_compute; discriminate | ].
    exists 9. split; vm_compute; reflexivity.
  - exists 70%Z. split; [vm_compute; discriminate | ].
    exists 7. split; vm_compute; reflexivity.
  - exists 50%Z. split; [vm_compute; discriminate | ].
    exists 5. split; vm_compute; reflexivity.
  - vm_compute. reflexivity.
Defined.

(** X5: with ordered thresholds each band is an interval of scores. *)
Theorem getRating_band_intervals config (score : Q) :
  needsImprovement (thresholds config) <= good (thresholds config) ->
  good (thresholds config) <= excellent (thresholds config) ->
  (getRating config (Finite score) = Excellent <->
   excellent (thresholds config) <= score) /\
  (getRating config (Finite score) = Good <->
   good (thresholds config) <= score < excellent (thresholds config)) /\
  (getRating config (Finite score) = NeedsImprovement <->
   needsImprovement (thresholds config) <= score < good (thresholds config)) /\
  (getRating config (Finite score) = Poor <->
   score < needsImprovement (thresholds config)).
Proof.
  intros HNG HGE. unfold getRating.
  destruct (ge_number (Finite score) (excellent (thresholds config))) eqn:E.
  { apply ge_number_finite in E.
    repeat split; intros; try congruence; try lra. }
  destruct (ge_number (Finite score) (good (thresholds config))) eqn:G.
  { apply ge_number_finite in G. apply ge_number_finite_false in E.
    repeat split; intros; try congruence; try lra. }
  destruct (ge_number (Finite score) (needsImprovement (thresholds config))) eqn:N.
  { apply ge_number_finite in N. apply ge_number_finite_false in E.
    apply ge_number_finite_false in G.
    repeat split; intros; try congruence; try lra. }
  apply ge_number_finite_false in E. apply ge_number_finite_false in G.
  apply ge_number_finite_false in N.
  repeat split; intros; try congruence; try lra.
Qed.

Lemma getRating_band_intervals_witness :
  getRating Fixtures.config (Finite 8.975) = Good <-> 7 <= 8.975 < 9.
Proof.
  apply (getRating_band_intervals Fixtures.config 8.975); qle_eval.
Defined.

(** X6: when the "excellent" threshold is not above the "good" one, no
    score is rated "good". *)
Theorem getRating_good_unreachable config (score : JsNumber) :
  excellent (thresholds config) <= good (thresholds config) ->
  getRating config score <> Good.
Proof.
  intros Hle. unfold getRating.
  destruct (ge_number score (excellent (thresholds config))) eqn:E;
    [discriminate | ].
  destruct (ge_number score (good (thresholds config))) eqn:G.
  - rewrite (ge_number_threshold score _ _ Hle G) in E. discriminate E.
  - destruct (ge_number score (needsImprovement (thresholds config)));
      discriminate.
Qed.

Lemma getRating_good_unreachable_witness :
  getRating
    {| weights := weights Fixtures.config;
       thresholds := {| excellent := 7; good := 9; needsImprovement := 5 |} |}
    (Finite 9.5) <> Good.
Proof.
  apply (getRating_good_unreachable
           {| weights := weights Fixtures.config;
              thresholds :=
                {| excellent := 7; good := 9; needsImprovement := 5 |} |}
           (Finite 9.5)).
  qle_eval.
Defined.

(** X7: the scores do not depend on the suggestion call: two clients that
    answer the clarity prompt alike produce the same total, breakdown and
    rating whenever both runs return. *)
Theorem scores_ignore_suggestion_reply
  config openai openai' now now' prData r r' :
  clarityReply openai = clarityReply openai' ->
  calculateScore config openai now prData = inr r ->
  calculateScore config openai' now' prData = inr r' ->
  totalScore r = totalScore r' /\
  breakdown r = breakdown r' /\
  rating r = rating r'.
Proof.
  intros Hsame H H'.
  apply calculateScore_inr in H. apply calculateScore_inr in H'.
  destruct H as (c & Hc & Hb & _ & Ht & Hr & _).
  destruct H' as (c' & Hc' & Hb' & _ & Ht' & Hr' & _).
  assert (Heq : c = c').
  { unfold analyzeClarityScore in Hc, Hc'. rewrite Hsame in Hc. congruence. }
  subst c'. assert (Hbb : breakdown r = breakdown r') by congruence.
  rewrite Ht, Ht', Hr, Hr', Hbb. repeat split; reflexivity.
Qed.

Lemma scores_ignore_suggestion_reply_witness :
  exists r r',
    calculateScore Fixtures.config (Fixtures.answering "6" JNull)
      "2025-01-27T00:00:00.000Z" Fixtures.bare = inr r /\
    calculateScore Fixtures.config
      (Fixtures.answering "6" (JArray [JString "Add a description"]))
      "2025-01-28T00:00:00.000Z" Fixtures.bare = inr r' /\
    totalScore r = totalScore r' /\
    breakdown r = breakdown r' /\
    rating r = rating r'.
Proof.
  eexists. eexists.
  split; [vm_compute; reflexivity | ].
  split; [vm_compute; reflexivity | ].
  apply (scores_ignore_suggestion_reply Fixtures.config
           (Fixtures.answering "6" JNull)
           (Fixtures.answering "6" (JArray [JString "Add a description"]))
           "2025-01-27T00:00:00.000Z" "2025-01-28T00:00:00.000Z"
           Fixtures.bare);
    vm_compute; reflexivity.
Defined.

(** X8: when the clarity call fails and the suggestion reply parses,
    [calculateScore] returns, and the clarity in its breakdown is the
    heuristic's value. *)
Theorem calculateScore_clarity_fallback config openai now prData cause json :
  clarityReply openai = inl cause ->
  suggestionReply openai = inr json ->
  exists r,
    calculateScore config openai now prData = inr r /\
    clarity (breakdown r)
    = fallbackClarityScore (title prData) (description prData).
Proof.
  intros Hclarity Hreply.
  rewrite (calculateScore_cases config openai now prData _
             (analyzeClarityScore_call_fails openai _ _ cause Hclarity)).
  rewrite generateSuggestions_cases, Hreply.
  destruct (lowScoreAreas _); [ | destruct json];
    eexists; (split; [reflexivity | reflexivity]).
Qed.

Lemma calculateScore_clarity_fallback_witness :
  exists r,
    calculateScore Fixtures.config
      {| clarityReply := inl (Error "Request timed out.");
         suggestionReply := inr JNull |}
      "2025-01-27T00:00:00.000Z" Fixtures.oauth = inr r /\
    clarity (breakdown r)
    = fallbackClarityScore (title Fixtures.oauth) (description Fixtures.oauth).
Proof.
  apply (calculateScore_clarity_fallback Fixtures.config
           {| clarityReply := inl (Error "Request timed out.");
              suggestionReply := inr JNull |}
           "2025-01-27T00:00:00.000Z" Fixtures.oauth
           (Error "Request timed out.") JNull);
    reflexivity.
Defined.

(** X9: when all four sub-scores are at least 7, [calculateScore] returns
    for every behaviour of the suggestion call, and its suggestions are the
    one affirmation string. *)
Theorem calculateScore_all_strong config openai now prData clarityScore :
  analyzeClarityScore openai (title prData) (description prData)
  = inr clarityScore ->
  7 <= clarityScore ->
  7 <= analyzeContextScore (description prData) (files prData) ->
  7 <= analyzeCompletenessScore prData ->
  7 <= analyzeJiraLinkScore (jiraContext prData) ->
  exists r,
    calculateScore config openai now prData = inr r /\
    suggestions r = [JString affirmation].
Proof.
  intros Hc H1 H2 H3 H4.
  rewrite (calculateScore_cases config openai now prData _ Hc).
  rewrite generateSuggestions_cases.
  assert (Hnil : lowScoreAreas (subScores clarityScore prData) = [])
    by (apply lowScoreAreas_nil; cbn [subScores clarity context completeness jiraLink]; auto).
  rewrite Hnil. eexists. split; reflexivity.
Qed.

Lemma calculateScore_all_strong_witness :
  exists r,
    calculateScore Fixtures.config
      {| clarityReply := inr "9";
         suggestionReply := inl (Error "Request timed out.") |}
      "2025-01-27T00:00:00.000Z" Fixtures.oauth = inr r /\
    suggestions r = [JString affirmation].
Proof.
  apply (calculateScore_all_strong Fixtures.config
           {| clarityReply := inr "9";
              suggestionReply := inl (Error "Request timed out.") |}
           "2025-01-27T00:00:00.000Z" Fixtures.oauth 9);
    try qle_eval.
  vm_compute. reflexivity.
Defined.

(** X10: a reply that parses to an array is returned as the suggestions,
    unchecked, whenever some sub-score is below 7. *)
Theorem calculateScore_array_reply config openai now prData r items :
  suggestionReply openai = inr (JArray items) ->
  calculateScore config openai now prData = inr r ->
  lowScoreAreas (breakdown r) <> [] ->
  suggestions r = items.
Proof.
  intros Hreply H Hweak. apply calculateScore_inr in H.
  destruct H as (c & _ & _ & Hs & _).
  rewrite generateSuggestions_cases, Hreply in Hs.
  destruct (lowScoreAreas (breakdown r)); congruence.
Qed.

Lemma calculateScore_array_reply_witness :
  exists r,
    calculateScore Fixtures.config
      (Fixtures.answering "6" (JArray [JNumber 1; JString ""]))
      "2025-01-27T00:00:00.000Z" Fixtures.bare = inr r /\
    suggestions r = [JNumber 1; JString ""].
Proof.
  eexists. split; [vm_compute; reflexivity | ].
  apply (calculateScore_array_reply Fixtures.config
           (Fixtures.answering "6" (JArray [JNumber 1; JString ""]))
           "2025-01-27T00:00:00.000Z" Fixtures.bare).
  - reflexivity.
  - vm_compute. reflexivity.
  - vm_compute. discriminate.
Defined.

(** X11: a reply that parses to a finite number is clamped to [1,10]: kept
    when in range, 10 when above, 1 when below. *)
Theorem analyzeClarityScore_clamps openai title description content q :
  clarityReply openai = inr content ->
  parseFloat (trim content) = Finite q ->
  exists score,
    analyzeClarityScore openai title description = inr score /\
    (1 <= q <= 10 -> score == q) /\
    (10 <= q -> score == 10) /\
    (q <= 1 -> score == 1).
Proof.
  intros Hreply Hparse. unfold analyzeClarityScore.
  rewrite Hreply. cbn. rewrite Hparse.
  eexists. split; [reflexivity | ].
  unfold Math_max, Math_min. repeat split.
  - intros [Hlo Hhi]. rewrite (Q.min_r _ _ Hhi). apply Q.max_r. exact Hlo.
  - intros Hhi. rewrite (Q.min_l _ _ Hhi). apply Q.max_r. qle_eval.
  - intros Hlo. apply Q.max_l.
    apply Qle_trans with q; [apply Q.le_min_r | exact Hlo].
Qed.

Lemma analyzeClarityScore_clamps_witness :
  exists score,
    analyzeClarityScore (Fixtures.answering " 42 " JNull)
      (Some "x") None = inr score /\
    score == 10.
Proof.
  destruct (analyzeClarityScore_clamps (Fixtures.answering " 42 " JNull)
              (Some "x") None " 42 " 42)
    as (score & Hscore & _ & Habove & _).
  - reflexivity.
  - vm_compute. reflexivity.
  - exists score. split; [exact Hscore | apply Habove; qle_eval].
Defined.

(** ** The fallback suggestions on any list of areas *)

Lemma suggestionFor_cases (area : string) :
  (area = "clarity" /\
   suggestionFor area
   = Some "Consider adding more descriptive title and detailed description") \/
  (area = "context" /\
   suggestionFor area
   = Some "Provide more context about why this change is needed") \/
  (area = "completeness" /\
   suggestionFor area = Some "Add tests and update documentation if needed") \/
  (area = "jiraLink" /\
   suggestionFor area = Some "Link this PR to the relevant Jira ticket") \/
  suggestionFor area = None.
Proof.
  unfold suggestionFor. cbn [property].
  destruct (String.eqb_spec "clarity" area) as [<- | _]; [auto | ].
  destruct (String.eqb_spec "context" area) as [<- | _]; [auto | ].
  destruct (String.eqb_spec "completeness" area) as [<- | _]; [auto | ].
  destruct (String.eqb_spec "jiraLink" area) as [<- | _]; [auto 6 | ].
  auto 6.
Qed.

Lemma suggestionFor_injective (a b s : string) :
  suggestionFor a = Some s -> suggestionFor b = Some s -> a = b.
Proof.
  intros Ha Hb.
  destruct (suggestionFor_cases a) as [[-> E] | [[-> E] | [[-> E] | [[-> E] | E]]]];
    rewrite E in Ha; try discriminate Ha; injection Ha as <-;
    destruct (suggestionFor_cases b) as [[-> F] | [[-> F] | [[-> F] | [[-> F] | F]]]];
    rewrite F in Hb; try discriminate Hb; reflexivity.
Qed.

Lemma getFallbackSuggestions_cons (area : string) (areas : list string) :
  getFallbackSuggestions (area :: areas) =
  match suggestionFor area with
  | Some s => s :: getFallbackSuggestions areas
  | None => getFallbackSuggestions areas
  end.
Proof.
  unfold getFallbackSuggestions. cbn [map].
  fold (suggestionFor area).
  destruct (suggestionFor_cases area) as [[_ E] | [[_ E] | [[_ E] | [[_ E] | E]]]];
    rewrite E; reflexivity.
Qed.

Lemma getFallbackSuggestions_source (areas : list string) (s : string) :
  In s (getFallbackSuggestions areas) ->
  exists area, In area areas /\ suggestionFor area = Some s.
Proof.
  induction areas as [ | a l IH]; [intros [] | ].
  rewrite getFallbackSuggestions_cons.
  destruct (suggestionFor a) as [s' | ] eqn:E.
  - intros [<- | Hin].
    + exists a. split; [left; reflexivity | exact E].
    + destruct (IH Hin) as (area & Hl & Hs).
      exists area. split; [right; exact Hl | exact Hs].
  - intros Hin. destruct (IH Hin) as (area & Hl & Hs).
    exists area. split; [right; exact Hl | exact Hs].
Qed.

(** X12: for a list of area names that [Object.prototype] does not define,
    the fallback holds exactly the fixed suggestions of the listed areas
    that have one; other names contribute nothing. *)
Theorem getFallbackSuggestions_In (areas : list string) (s : string) :
  (forall area, In area areas -> ~ In area objectPrototypeNames) ->
  (In s (getFallbackSuggestions areas) <->
   exists area, In area areas /\ suggestionFor area = Some s).
Proof.
  intros _.
  split; [apply getFallbackSuggestions_source | ].
  induction areas as [ | a l IH]; intros (area & Hin & Hs); [destruct Hin | ].
  rewrite getFallbackSuggestions_cons. destruct Hin as [<- | Hin].
  - rewrite Hs. left. reflexivity.
  - assert (Hl : In s (getFallbackSuggestions l)) by (apply IH; eauto).
    destruct (suggestionFor a); [right | ]; exact Hl.
Qed.

Lemma getFallbackSuggestions_In_witness :
  In "Link this PR to the relevant Jira ticket"
    (getFallbackSuggestions ["performance"; "jiraLink"]) <->
  exists area,
    In area ["performance"; "jiraLink"] /\
    suggestionFor area = Some "Link this PR to the relevant Jira ticket".
Proof.
  apply (getFallbackSuggestions_In ["performance"; "jiraLink"]
           "Link this PR to the relevant Jira ticket").
  intros area [<- | [<- | []]] Hin;
    repeat (destruct Hin as [Hin | Hin]; [discriminate Hin | ]);
    exact Hin.
Defined.

(** X13: the fallback never lists more suggestions than areas, and repeats
    none when no area is repeated. *)
Theorem getFallbackSuggestions_NoDup (areas : list string) :
  (List.length (getFallbackSuggestions areas) <= List.length areas)%nat /\
  (NoDup areas -> NoDup (getFallbackSuggestions areas)).
Proof.
  induction areas as [ | a l [IHlen IHnd]].
  - split; [apply Nat.le_refl | intros _; constructor].
  - rewrite getFallbackSuggestions_cons. split.
    + destruct (suggestionFor a); cbn [List.length]; lia.
    + intros Hnd. inversion Hnd as [ | ? ? Hnotin Hnd']; subst.
      destruct (suggestionFor a) as [s | ] eqn:E; [ | auto].
      constructor; [ | auto].
      intros Hin. apply getFallbackSuggestions_source in Hin.
      destruct Hin as (b & Hb & Hs).
      apply Hnotin. rewrite (suggestionFor_injective a b s E Hs). exact Hb.
Qed.

Lemma getFallbackSuggestions_NoDup_witness :
  NoDup (getFallbackSuggestions ["jiraLink"; "performance"; "clarity"]).
Proof.
  apply (getFallbackSuggestions_NoDup ["jiraLink"; "performance"; "clarity"]).
  repeat constructor; cbn; intuition discriminate.
Defined.

(** ** More on the heuristic evaluators *)

(** X14: a ticket context with a ticket id is never a weak dimension; one
    without it scores at most 8. *)
Theorem analyzeJiraLinkScore_ticketId (jc : JiraContext) :
  (truthy (ticketId jc) = true -> 7 <= analyzeJiraLinkScore (Some jc)) /\
  (truthy (ticketId jc) = false -> analyzeJiraLinkScore (Some jc) <= 8).
Proof.
  unfold analyzeJiraLinkScore.
  destruct (truthy (ticketId jc)), (ticketStatus jc) as [st | ],
    (truthy (ticketType jc)), (truthy (priority jc));
    try destruct (String.eqb st "In Progress");
    split; intros H; try discriminate H; qle_eval.
Qed.

Lemma analyzeJiraLinkScore_ticketId_witness :
  7 <= analyzeJiraLinkScore
         (Some {| ticketId := Some "PRA-42"; ticketStatus := None;
                  ticketType := None; priority := None |}) /\
  analyzeJiraLinkScore
    (Some {| ticketId := Some ""; ticketStatus := Some "In Progress";
             ticketType := Some "Bug"; priority := Some "High" |}) <= 8.
Proof.
  split.
  - apply (analyzeJiraLinkScore_ticketId
             {| ticketId := Some "PRA-42"; ticketStatus := None;
                ticketType := None; priority := None |}).
    reflexivity.
  - apply (analyzeJiraLinkScore_ticketId
             {| ticketId := Some ""; ticketStatus := Some "In Progress";
                ticketType := Some "Bug"; priority := Some "High" |}).
    reflexivity.
Defined.

(** X15: the ticket linkage is 10 exactly when the context has a ticket id,
    the status "In Progress", a ticket type and a priority. *)
Theorem analyzeJiraLinkScore_full (jc : JiraContext) :
  analyzeJiraLinkScore (Some jc) == 10 <->
  truthy (ticketId jc) = true /\
  ticketStatus jc = Some "In Progress" /\
  truthy (ticketType jc) = true /\
  truthy (priority jc) = true.
Proof.
  unfold analyzeJiraLinkScore.
  destruct (truthy (ticketId jc)), (ticketStatus jc) as [st | ],
    (truthy (ticketType jc)), (truthy (priority jc));
    try destruct (String.eqb_spec st "In Progress") as [-> | Hst];
    (split;
     [ intros H; try (exfalso; revert H; vm_compute; discriminate);
       repeat split; reflexivity
     | intros (H1 & H2 & H3 & H4);
       try discriminate; try congruence; try (vm_compute; reflexivity) ]).
Qed.

(** X16: the completeness sub-score is at least 5, and at most 9 without a
    test reference. *)
Theorem analyzeCompletenessScore_tests (prData : PrData) :
  5 <= analyzeCompletenessScore prData /\
  (longer_than (tests prData) 0 = false ->
   analyzeCompletenessScore prData <= 9).
Proof.
  unfold analyzeCompletenessScore.
  destruct (truthy (title prData) && (10 <? length_of (title prData))%nat),
    (truthy (description prData) && (50 <? length_of (description prData))%nat),
    (longer_than (files prData) 0),
    (longer_than (tests prData) 0),
    (match files prData with
     | Some fs =>
         existsb
           (fun file =>
              includes (toLowerCase (filename file)) "readme" ||
              includes (toLowerCase (filename file)) ".md") fs
     | None => false
     end);
    (split; [qle_eval | intros H; try discriminate H; qle_eval]).
Qed.

Lemma analyzeCompletenessScore_tests_witness :
  analyzeCompletenessScore
    {| id := "PR-4"; title := Some "feat: add OAuth2 login";
       description := Some Fixtures.plain;
       files := Some [Fixtures.file "README.md"];
       tests := Some []; jiraContext := None |} <= 9.
Proof.
  apply (analyzeCompletenessScore_tests
           {| id := "PR-4"; title := Some "feat: add OAuth2 login";
              description := Some Fixtures.plain;
              files := Some [Fixtures.file "README.md"];
              tests := Some []; jiraContext := None |}).
  reflexivity.
Defined.

(** X17: the context sub-score is at least 4, and below 5 only when more
    than 10 files changed. *)
Theorem analyzeContextScore_floor
  (description : option string) (files : option (list FileChange)) :
  4 <= analyzeContextScore description files /\
  (analyzeContextScore description files < 5 -> longer_than files 10 = true).
Proof.
  unfold analyzeContextScore.
  destruct (truthy description && (100 <? length_of description)%nat),
    (truthy description && (300 <? length_of description)%nat),
    (existsb
       (fun keyword =>
          match description with
          | Some d => includes (toLowerCase d) keyword
          | None => false
          end)
       ["because"; "fixes"; "addresses"; "implements"; "refactor"]);
    (destruct files as [fs | ]; cbn [longer_than];
     [ destruct (0 <? List.length fs)%nat, (List.length fs <=? 5)%nat,
         (10 <? List.length fs)%nat | ];
     (split;
      [ qle_eval
      | intros H;
        first [ reflexivity
              | exfalso; revert H; apply Qle_not_lt; qle_eval ] ])).
Qed.

Lemma analyzeContextScore_floor_witness :
  let files := Some (map Fixtures.file
                       ["a"; "b"; "c"; "d"; "e"; "f"; "g"; "h"; "i"; "j"; "k"]) in
  analyzeContextScore None files < 5 /\ longer_than files 10 = true.
Proof.
  cbv zeta. split; [reflexivity | ].
  apply (analyzeContextScore_floor None
           (Some (map Fixtures.file
                    ["a"; "b"; "c"; "d"; "e"; "f"; "g"; "h"; "i"; "j"; "k"]))).
  reflexivity.
Defined.

(** X18: the fallback clarity is 5, plus 2 for a title of 11 to 99
    characters, plus 2 for a description longer than 50, plus 1 for a
    conventional-commit prefix; the clamp never binds. *)
Theorem fallbackClarityScore_formula (title description : option string) :
  fallbackClarityScore title description ==
  5
  + (if ((10 <? length_of title) && (length_of title <? 100))%nat
     then 2 else 0)
  + (if (50 <? length_of description)%nat then 2 else 0)
  + (if conventionalPrefix title then 1 else 0).
Proof.
  unfold fallbackClarityScore.
  rewrite (guarded_length description).
  assert (Ht : forall b, (truthy title && (10 <? length_of title)%nat && b)%bool
                         = ((10 <? length_of title)%nat && b)%bool)
    by (intros b; rewrite guarded_length; reflexivity).
  rewrite Ht.
  assert (Hp : truthy title &&
               match title with
               | Some t =>
                   existsb (fun type => prefix (type ++ ":") (toLowerCase t))
                     ["feat"; "fix"; "docs"; "style"; "refactor"; "test"; "chore"]
               | None => false
               end = conventionalPrefix title)
    by (destruct title as [[ | c t] | ]; reflexivity).
  rewrite Hp.
  destruct ((10 <? length_of title) && (length_of title <? 100))%nat,
    (50 <? length_of description)%nat, (conventionalPrefix title);
    vm_compute; reflexivity.
Qed.

(** ** Letter case *)

Lemma lower_ascii_idempotent (c : ascii) :
  lower_ascii (lower_ascii c) = lower_ascii c.
Proof.
  destruct c as [[] [] [] [] [] [] [] []]; vm_compute; reflexivity.
Qed.

Lemma toLowerCase_idempotent (s : string) :
  toLowerCase (toLowerCase s) = toLowerCase s.
Proof.
  induction s as [ | c s IH]; cbn; [reflexivity | ].
  rewrite lower_ascii_idempotent, IH. reflexivity.
Qed.

Lemma toLowerCase_length (s : string) :
  String.length (toLowerCase s) = String.length s.
Proof.
  induction s as [ | c s IH]; cbn; [reflexivity | ].
  rewrite IH. reflexivity.
Qed.

Lemma truthy_toLowerCase (s : string) :
  truthy (Some (toLowerCase s)) = truthy (Some s).
Proof. destruct s; reflexivity. Qed.

(** X19: the letter case of the description does not change the context
    sub-score, and the letter case of the title does not change the
    fallback clarity. *)
Theorem scores_ignore_letter_case
  (text : string) (description : option string)
  (files : option (list FileChange)) :
  analyzeContextScore (Some (toLowerCase text)) files
  = analyzeContextScore (Some text) files /\
  fallbackClarityScore (Some (toLowerCase text)) description
  = fallbackClarityScore (Some text) description.
Proof.
  unfold analyzeContextScore, fallbackClarityScore.
  rewrite !truthy_toLowerCase.
  cbn [length_of].
  rewrite !toLowerCase_length, !toLowerCase_idempotent.
  split; reflexivity.
Qed.
